(** * Pacs-Simpa: the shop cart of the front-end script and the two servers

    The repository holds a browser script (navigation, KPI animation, shop
    cart, shop filters) and two Express servers that differ in their storage
    backend: [server.js] on SQLite and a second one on PostgreSQL.  This
    development embeds the cart object, the start-up seeding of both servers,
    their route guards and their event-registration handlers, and states the
    properties of the specification over these embeddings.

    Conventions.  Prices and amounts are JavaScript numbers, that is
    binary64 floats, with the arithmetic of the language; quantities are
    counts, kept as integers ([Z]) and turned into the number of that value
    where they meet a price.  Built-ins of the host (JSON, [toLocaleString],
    bcrypt, the database driver) are either Section variables or explicit
    outcomes given to the function that calls them. *)

From Stdlib Require Import String Ascii List ZArith QArith Lia Bool.
From Stdlib Require Import Floats.
Import ListNotations.
Set Warnings "-register-all,-inexact-float".

(* ===================================================================== *)
(** ** JavaScript values as far as the cart meets them *)
(* ===================================================================== *)

Module Js.

(** What [JSON.parse] can return.  An object keeps its properties in
    source order. *)
Inductive value : Type :=
| VNull
| VBool (b : bool)
| VNum (n : float)
| VStr (s : string)
| VArr (elems : list value)
| VObj (props : list (string * value)).

(** The number whose value is the integer [z], rounded to the nearest
    binary64 float when [z] is not one. *)
Definition number_of_Z (z : Z) : float :=
  SF2Prim (binary_normalize prec emax z 0 false).

Inductive exn : Type := TypeError | SyntaxError.

(** Outcome of a statement sequence: normal completion or a throw. *)
Inductive completion : Type := Normal | Throw (e : exn).

Definition seq (a b : completion) : completion :=
  match a with Normal => b | Throw e => Throw e end.

Fixpoint seq_all (cs : list completion) : completion :=
  match cs with
  | [] => Normal
  | c :: rest => seq c (seq_all rest)
  end.

Fixpoint lookup (k : string) (props : list (string * value)) : option value :=
  match props with
  | [] => None
  | (k', v) :: rest => if String.eqb k' k then Some v else lookup k rest
  end.

Definition has_own (k : string) (props : list (string * value)) : bool :=
  match lookup k props with Some _ => true | None => false end.

(** [o.k]: reading a property of [null] throws; a primitive or an array has
    none of the cart's property names, so the read gives [undefined]
    ([None]). *)
Definition get (o : value) (k : string) : exn + option value :=
  match o with
  | VNull => inl TypeError
  | VObj props => inr (lookup k props)
  | _ => inr None
  end.

(** Conversion of a value to a primitive, as [+], [*] and template literals
    perform it, completes unless an object carries an own [toString]
    property: a parsed property is never callable, so neither [toString] nor
    the inherited [valueOf] yields a primitive.  Arrays convert through
    [join], which converts each element that is not [null]. *)
Fixpoint to_primitive (v : value) : completion :=
  match v with
  | VObj props => if has_own "toString" props then Throw TypeError else Normal
  | VArr elems =>
      (fix all (l : list value) : completion :=
         match l with
         | [] => Normal
         | x :: rest => seq (to_primitive x) (all rest)
         end) elems
  | _ => Normal
  end.

Definition to_primitive_opt (v : option value) : completion :=
  match v with Some x => to_primitive x | None => Normal end.

(** [v.toLocaleString(...)]: a method call on [undefined] or [null] throws;
    on an object the own property (not callable) or the inherited method
    (which calls [toString]) is used; an array asks each element that is
    not [null]. *)
Fixpoint call_toLocaleString (v : value) : completion :=
  match v with
  | VNull => Throw TypeError
  | VObj props =>
      if has_own "toLocaleString" props then Throw TypeError
      else if has_own "toString" props then Throw TypeError else Normal
  | VArr elems =>
      (fix all (l : list value) : completion :=
         match l with
         | [] => Normal
         | VNull :: rest => all rest
         | x :: rest => seq (call_toLocaleString x) (all rest)
         end) elems
  | _ => Normal
  end.

Definition call_toLocaleString_opt (v : option value) : completion :=
  match v with Some x => call_toLocaleString x | None => Throw TypeError end.

(** Truthiness of an optional string ([undefined] and the empty string are
    falsy). *)
Definition truthy_str (s : option string) : bool :=
  match s with
  | Some (String _ _) => true
  | _ => false
  end.

End Js.

(* ===================================================================== *)
(** ** The cart object of the front-end script *)
(* ===================================================================== *)

Module Cart.
Import Js.
Local Open Scope string_scope.

(** The argument of [cart.add], as the click handler of a product card
    builds it: [{ id, name, price, img, variant }].  [variant] is [None]
    when the property is missing. *)
Record product : Type := {
  p_id : string;
  p_name : string;
  p_price : float;
  p_img : string;
  p_variant : option string
}.

(** One entry of [cart.items]: [{ key, ...product, qty }]. *)
Record line : Type := {
  key : string;
  id : string;
  name : string;
  price : float;
  img : string;
  variant : option string;
  qty : Z
}.

Definition with_qty (i : line) (q : Z) : line :=
  {| key := key i; id := id i; name := name i; price := price i;
     img := img i; variant := variant i; qty := q |}.

(** The cart object: its [items] and the entry of [localStorage] under
    [CART_KEY] ([None] when the entry is missing). *)
Record cart : Type := {
  items : list line;
  storage : option string
}.

Definition CART_KEY : string := "pacs_cart".

(** The elements of the page that [updateUI] looks up. *)
Record dom : Type := {
  has_cartCount : bool;
  has_cartItems : bool;
  has_cartTotal : bool
}.


(** The lines of a cart as the value that [JSON.stringify] receives.  A
    missing [variant] is left out. *)
Definition encode_line (i : line) : value :=
  VObj ([("key", VStr (key i)); ("id", VStr (id i)); ("name", VStr (name i));
         ("price", VNum (price i)); ("img", VStr (img i))]
        ++ match variant i with
           | Some v => [("variant", VStr v)]
           | None => []
           end
        ++ [("qty", VNum (number_of_Z (qty i)))]).

Definition encode (l : list line) : value := VArr (map encode_line l).

Definition truthy (v : value) : bool :=
  match v with
  | VNull => false
  | VBool b => b
  | VNum n => negb (PrimFloat.eqb n 0 || PrimFloat.is_nan n)
  | VStr EmptyString => false
  | _ => true
  end.

(** [${i.k}] and the operands of [+] and [*]: read the property, then
    convert it. *)
Definition read_conv (i : value) (k : string) : completion :=
  match get i k with
  | inl e => Throw e
  | inr v => to_primitive_opt v
  end.

(** The callback of [this.items.reduce((s,i) => s + i.qty, 0)]. *)
Definition count_step (i : value) : completion := read_conv i "qty".

(** The callback of [reduce((s,i) => s + i.price*i.qty, 0)] in [total]. *)
Definition total_step (i : value) : completion :=
  seq (read_conv i "price") (read_conv i "qty").

(** The template of one row of the drawer. *)
Definition row_step (i : value) : completion :=
  seq_all
    [ read_conv i "img"; read_conv i "name"; read_conv i "name";
      match get i "variant" with
      | inl e => Throw e
      | inr None => Normal
      | inr (Some v) => if truthy v then to_primitive v else Normal
      end;
      match get i "price" with
      | inl e => Throw e
      | inr v => call_toLocaleString_opt v
      end;
      read_conv i "key"; read_conv i "qty"; read_conv i "key";
      read_conv i "key" ].

(** [updateUI], reduced to whether it completes: the texts it writes into
    the page are not kept.  [this.items] is whatever [load] stored. *)
Definition updateUI (d : dom) (its : value) : completion :=
  match its with
  | VArr l =>
      seq (seq_all (map count_step l))
        (if has_cartItems d then
           seq (seq_all (map row_step l))
             (if has_cartTotal d then seq_all (map total_step l) else Normal)
         else Normal)
  | _ => Throw TypeError
  end.

Section Host.

(** [JSON.parse]: [None] stands for a thrown [SyntaxError]. *)
Variable JSON_parse : string -> option value.
Variable JSON_stringify : value -> string.

(** [load()]: the new [this.items] and how the call completes.  What the
    storage holds is not under the control of the script, so [this.items]
    is a value of any shape here. *)
Definition load (d : dom) (stored : option string) : value * completion :=
  let text := match stored with
              | Some (String a s) => String a s
              | _ => "[]"
              end in
  let its := match JSON_parse text with
             | Some v => v
             | None => VArr []
             end in
  (its, updateUI d its).

(** [save()]: writes the lines to the storage.  The [updateUI] that
    follows leaves the state as it is and completes on lines that the cart
    built itself, so the operations below do not carry it. *)
Definition save (c : cart) : cart :=
  {| items := items c;
     storage := Some (JSON_stringify (encode (items c))) |}.

End Host.

Definition line_key (p : product) : string :=
  p_id p ++ (if truthy_str (p_variant p)
             then ":" ++ match p_variant p with Some v => v | None => EmptyString end
             else EmptyString).

Definition new_line (p : product) : line :=
  {| key := line_key p; id := p_id p; name := p_name p; price := p_price p;
     img := p_img p; variant := p_variant p; qty := 1 |}.

(** [this.items.find(i => i.key === k)]. *)
Definition find_line (k : string) (l : list line) : option line :=
  find (fun i => String.eqb (key i) k) l.

(** Assignment to [qty] of the object that [find] returned: the first line
    with key [k] changes in place. *)
Fixpoint update_found (k : string) (f : Z -> Z) (l : list line) : list line :=
  match l with
  | [] => []
  | i :: rest =>
      if String.eqb (key i) k then with_qty i (f (qty i)) :: rest
      else i :: update_found k f rest
  end.

Section Ops.

Variable JSON_stringify : value -> string.

Definition add (p : product) (c : cart) : cart :=
  let k := line_key p in
  save JSON_stringify
    match find_line k (items c) with
    | Some _ =>
        {| items := update_found k (fun q => q + 1)%Z (items c);
           storage := storage c |}
    | None =>
        {| items := items c ++ [new_line p]; storage := storage c |}
    end.

Definition inc (k : string) (c : cart) : cart :=
  match find_line k (items c) with
  | Some _ =>
      save JSON_stringify
        {| items := update_found k (fun q => q + 1)%Z (items c);
           storage := storage c |}
  | None => c
  end.

Definition remove (k : string) (c : cart) : cart :=
  save JSON_stringify
    {| items := filter (fun i => negb (String.eqb (key i) k)) (items c);
       storage := storage c |}.

Definition dec (k : string) (c : cart) : cart :=
  match find_line k (items c) with
  | Some it =>
      if (1 <? qty it)%Z then
        save JSON_stringify
          {| items := update_found k (fun q => q - 1)%Z (items c);
             storage := storage c |}
      else remove k c
  | None => remove k c
  end.

Definition clear (c : cart) : cart :=
  save JSON_stringify {| items := []; storage := storage c |}.

End Ops.

Definition total (c : cart) : float :=
  fold_left (fun s i => (s + price i * number_of_Z (qty i))%float)
    (items c) 0%float.



Definition empty (s : option string) : cart := {| items := []; storage := s |}.

Definition keys (c : cart) : list string := map key (items c).

(** The state invariant of the specification: every quantity is at least 1
    and no key occurs twice. *)
Definition well_formed (c : cart) : Prop :=
  Forall (fun i => 1 <= qty i)%Z (items c) /\ NoDup (keys c).

(** The operations a visitor can trigger, and runs of them. *)
Inductive op : Type :=
| OAdd (p : product)
| OInc (k : string)
| ODec (k : string)
| ORemove (k : string)
| OClear.

Definition step (js : value -> string) (c : cart) (o : op) : cart :=
  match o with
  | OAdd p => add js p c
  | OInc k => inc js k c
  | ODec k => dec js k c
  | ORemove k => remove js k c
  | OClear => clear js c
  end.

Definition run (js : value -> string) (c : cart) (ops : list op) : cart :=
  fold_left (step js) ops c.

Section Checkout.

(** [n.toLocaleString('fr-FR', { style:'currency', currency:'EUR' })]. *)
Variable toLocaleString : float -> string.
(** Conversion of a number to a string in a template literal. *)
Variable String_of_number : float -> string.







End Checkout.

End Cart.

(* ===================================================================== *)
(** ** What both servers share: requests, responses, form bodies *)
(* ===================================================================== *)

Module Http.
Local Open Scope string_scope.

Inductive method : Type := GET | POST.

(** The ways a handler answers: [res.redirect(l)], [res.status(s).send(b)]
    and [res.render(view, { error })]. *)
Inductive response : Type :=
| Redirect (location : string)
| Send (status : Z) (body : string)
| Render (view : string) (error : option string).

Definition status_of (r : response) : Z :=
  match r with
  | Redirect _ => 302
  | Send s _ => s
  | Render _ _ => 200
  end.

(** A url-encoded form body: the fields that were sent, with their text.
    A field sent more than once reaches the handler as an array, not as a
    text; [field] reads bodies in which every field is sent once. *)
Definition form : Type := list (string * string).

Fixpoint field (k : string) (b : form) : option string :=
  match b with
  | [] => None
  | (k', v) :: rest => if String.eqb k' k then Some v else field k rest
  end.

(** What a middleware does: call [next()] or answer. *)
Inductive passage : Type :=
| Next
| Answer (r : response).

(** Where a request ends: answered by a guard, inside the body of a
    handler, or with no route at all. *)
Inductive arrival (handler : Type) : Type :=
| Stopped (r : response)
| Entered (h : handler)
| NoRoute.
Arguments Stopped {handler} r.
Arguments Entered {handler} h.
Arguments NoRoute {handler}.

Fixpoint through {session : Type} (guards : list (session -> passage))
  (s : session) : passage :=
  match guards with
  | [] => Next
  | g :: rest =>
      match g s with
      | Next => through rest s
      | Answer r => Answer r
      end
  end.

(** Console output of the process, oldest first. *)
Definition console : Type := list string.

End Http.

(* ===================================================================== *)
(** ** [server.js]: the server on SQLite *)
(* ===================================================================== *)

Module Sqlite.
Import Http.
Local Open Scope string_scope.
Local Open Scope Z_scope.

Record role : Type := { role_id : Z; role_name : string }.

Record user : Type := {
  user_id : Z;
  username : string;
  password : string;
  user_role_id : Z
}.

Record registration : Type := {
  reg_id : Z;
  reg_event_id : string;
  reg_name : string;
  reg_email : string;
  reg_phone : option string
}.

(** The tables the modelled code touches, each with the last AUTOINCREMENT
    id it has given out. *)
Record db : Type := {
  roles : list role;
  roles_seq : Z;
  users : list user;
  users_seq : Z;
  registrations : list registration;
  registrations_seq : Z
}.

(** The database just after the CREATE TABLE statements on a new file. *)
Definition fresh : db :=
  {| roles := []; roles_seq := 0; users := []; users_seq := 0;
     registrations := []; registrations_seq := 0 |}.

Definition insert_role (n : string) (d : db) : db :=
  {| roles := roles d ++ [{| role_id := roles_seq d + 1; role_name := n |}];
     roles_seq := roles_seq d + 1;
     users := users d; users_seq := users_seq d;
     registrations := registrations d;
     registrations_seq := registrations_seq d |}.

Definition insert_user (n h : string) (r : Z) (d : db) : db :=
  {| roles := roles d; roles_seq := roles_seq d;
     users := users d ++ [{| user_id := users_seq d + 1; username := n;
                             password := h; user_role_id := r |}];
     users_seq := users_seq d + 1;
     registrations := registrations d;
     registrations_seq := registrations_seq d |}.

Definition insert_registration (e n m : string) (p : option string) (d : db)
  : db :=
  {| roles := roles d; roles_seq := roles_seq d;
     users := users d; users_seq := users_seq d;
     registrations := registrations d
       ++ [{| reg_id := registrations_seq d + 1; reg_event_id := e;
              reg_name := n; reg_email := m; reg_phone := p |}];
     registrations_seq := registrations_seq d + 1 |}.

(** [SELECT id FROM roles WHERE name = ?]. *)
Definition role_by_name (n : string) (rs : list role) : option role :=
  find (fun r => String.eqb (role_name r) n) rs.

(** What the host decides during the seeding: the outcome of
    [bcrypt.hash] ([None] for [errHash]) and whether the lookup of the
    admin role is answered after the roles were inserted. *)
Record seeding : Type := {
  hash : option string;
  lookup_after_roles : bool
}.

(** [// Seed roles if none exist]. *)
Definition seed_roles (d : db) : db :=
  if (length (roles d) =? 0)%nat
  then insert_role "volunteer" (insert_role "staff" (insert_role "admin" d))
  else d.

(** [// Seed default admin if none exist]: [before] is the roles table as
    the start-up found it. *)
Definition seed_admin (h : seeding) (before : list role) (d : db) : db :=
  if (length (users d) =? 0)%nat then
    match hash h with
    | Some hashed =>
        let seen := if lookup_after_roles h then roles d else before in
        let roleId := match role_by_name "admin" seen with
                      | Some roleRow => role_id roleRow
                      | None => 1
                      end in
        insert_user "admin" hashed roleId d
    | None => d
    end
  else d.

(** The seeding of roles and of the default admin at start-up, with what
    it writes to the console. *)
Definition bootstrap (h : seeding) (d : db) : db * console :=
  (seed_admin h (roles d) (seed_roles d), []).

(** [req.session.user]. *)
Record session_user : Type := {
  su_id : Z;
  su_username : string;
  su_role : string
}.

Definition session : Type := option session_user.

(** [requireAdmin]. *)
Definition requireAdmin (s : session) : passage :=
  match s with
  | None => Answer (Redirect "/login")
  | Some u =>
      if negb (String.eqb (su_role u) "admin")
      then Answer (Redirect "/login")
      else Next
  end.

Inductive handler : Type :=
| Home | EventsRegister | Contact | LoginPage | LoginSubmit | Logout
| AdminDashboard | AdminEventsAdd | AdminVolunteersAdd.

(** The routes of [app.get] and [app.post] with their guards. *)
Definition route (m : method) (path : string)
  : option (list (session -> passage) * handler) :=
  match m with
  | GET =>
      if String.eqb path "/" then Some ([], Home)
      else if String.eqb path "/login" then Some ([], LoginPage)
      else if String.eqb path "/logout" then Some ([], Logout)
      else if String.eqb path "/admin" then Some ([requireAdmin], AdminDashboard)
      else None
  | POST =>
      if String.eqb path "/events/register" then Some ([], EventsRegister)
      else if String.eqb path "/contact" then Some ([], Contact)
      else if String.eqb path "/login" then Some ([], LoginSubmit)
      else if String.eqb path "/admin/events/add"
      then Some ([requireAdmin], AdminEventsAdd)
      else if String.eqb path "/admin/volunteers/add"
      then Some ([requireAdmin], AdminVolunteersAdd)
      else None
  end.

Definition dispatch (m : method) (path : string) (s : session)
  : arrival handler :=
  match route m path with
  | None => NoRoute
  | Some (guards, h) =>
      match through guards s with
      | Answer r => Stopped r
      | Next => Entered h
      end
  end.

(** [POST /login]: the row of the join of users and roles, the comparison
    of bcrypt ([same], false also when it reports an error), the new
    session; [query_err] tells whether the driver reports an error. *)
Definition login (same : string -> string -> bool) (query_err : bool)
  (d : db) (body : form) (s : session) : response * session :=
  if query_err then (Render "login" (Some "Erreur de base de données."), s)
  else
  let uname := field "username" body in
  let found :=
    match uname with
    | Some n =>
        match find (fun u => String.eqb (username u) n) (users d) with
        | Some u =>
            match find (fun r => role_id r =? user_role_id u) (roles d) with
            | Some r => Some (u, role_name r)
            | None => None
            end
        | None => None
        end
    | None => None
    end in
  match found with
  | None => (Render "login" (Some "Utilisateur inconnu."), s)
  | Some (u, rname) =>
      match field "password" body with
      | Some pw =>
          if same pw (password u)
          then (Redirect "/admin",
                Some {| su_id := user_id u; su_username := username u;
                        su_role := rname |})
          else (Render "login" (Some "Mot de passe incorrect."), s)
      | None => (Render "login" (Some "Mot de passe incorrect."), s)
      end
  end.

(** [!x] on a form field. *)
Definition missing (x : option string) : bool :=
  match x with
  | Some (String _ _) => false
  | _ => true
  end.

Definition text (x : option string) : string :=
  match x with Some s => s | None => EmptyString end.

(** [phone || null]. *)
Definition or_null (x : option string) : option string :=
  match x with
  | Some (String a s) => Some (String a s)
  | _ => None
  end.

(** [POST /events/register].  [insert_err] tells whether the driver hands
    an error to the callback of [db.run]. *)
Definition events_register (insert_err : bool) (body : form) (d : db)
  : response * db :=
  let event_id := field "event_id" body in
  let name := field "name" body in
  let email := field "email" body in
  let phone := field "phone" body in
  if missing event_id || missing name || missing email
  then (Send 400 "Tous les champs requis manquent.", d)
  else if insert_err
  then (Send 500 "Erreur lors de l’inscription à l’atelier.", d)
  else (Redirect "/?success=1",
        insert_registration (text event_id) (text name) (text email)
          (or_null phone) d).

End Sqlite.

(* ===================================================================== *)
(** ** The second server: the same site on PostgreSQL *)
(* ===================================================================== *)

Module Pg.
Import Http.
Local Open Scope string_scope.
Local Open Scope Z_scope.

Record role : Type := { role_id : Z; role_name : string }.

Record user : Type := {
  user_id : Z;
  username : string;
  password : string;
  user_role_id : Z
}.

(** A row of [registrations] as the handler sends it: a parameter that is
    [undefined] arrives as NULL, an id that is [NaN] as [None]. *)
Record registration : Type := {
  reg_event_id : option Z;
  reg_name : option string;
  reg_email : option string
}.

(** The rows of the tables, which a transaction can roll back. *)
Record tables : Type := {
  roles : list role;
  users : list user;
  registrations : list registration
}.

(** The database: the rows, and the SERIAL sequences, which no rollback
    restores. *)
Record db : Type := {
  rows : tables;
  roles_seq : Z;
  users_seq : Z
}.

Definition fresh : db :=
  {| rows := {| roles := []; users := []; registrations := [] |};
     roles_seq := 0; users_seq := 0 |}.

Definition insert_role (n : string) (d : db) : db :=
  {| rows := {| roles := roles (rows d)
                  ++ [{| role_id := roles_seq d + 1; role_name := n |}];
                users := users (rows d);
                registrations := registrations (rows d) |};
     roles_seq := roles_seq d + 1;
     users_seq := users_seq d |}.

Definition insert_user (n h : string) (r : Z) (d : db) : db :=
  {| rows := {| roles := roles (rows d);
                users := users (rows d)
                  ++ [{| user_id := users_seq d + 1; username := n;
                         password := h; user_role_id := r |}];
                registrations := registrations (rows d) |};
     roles_seq := roles_seq d;
     users_seq := users_seq d + 1 |}.

Definition insert_registration (r : registration) (d : db) : db :=
  {| rows := {| roles := roles (rows d); users := users (rows d);
                registrations := registrations (rows d) ++ [r] |};
     roles_seq := roles_seq d;
     users_seq := users_seq d |}.

(** The awaited calls of [ensureAdmin], each of which can reject. *)
Inductive call : Type :=
| Connect | Begin | CreateTables | CountRoles | InsertRoles | SelectAdmin
| Hash | SelectRole | InsertUser | Commit | Rollback.

(** What the host decides during one run: which calls reject, and the hash
    that [bcrypt.hash] gives. *)
Record run : Type := {
  rejects : call -> bool;
  hashed : string
}.

Definition no_rejection (hsh : string) : run :=
  {| rejects := fun _ => false; hashed := hsh |}.

(** Statements inside [try]: a state and either a value or a throw. *)
Definition tx (A : Type) : Type := db -> db * option A.

Definition ret {A : Type} (a : A) : tx A := fun d => (d, Some a).

Definition bind {A B : Type} (m : tx A) (f : A -> tx B) : tx B :=
  fun d =>
    match m d with
    | (d', Some a) => f a d'
    | (d', None) => (d', None)
    end.

Definition throw {A : Type} : tx A := fun d => (d, None).

Notation "x <- m ;; k" := (bind m (fun x => k))
  (at level 61, m at next level, right associativity).
Notation "m ;;; k" := (bind m (fun _ => k))
  (at level 61, right associativity).

(** [await c]: rejects when the host says so, otherwise runs [f]. *)
Definition await {A : Type} (h : run) (c : call) (f : db -> db * A) : tx A :=
  fun d => if rejects h c then (d, None)
           else let (d', a) := f d in (d', Some a).

Definition when (b : bool) (m : tx unit) : tx unit :=
  if b then m else ret tt.

(** The body of [try] in [ensureAdmin], up to and including COMMIT. *)
Definition ensureAdmin_try (h : run) : tx unit :=
  await h Begin (fun d => (d, tt)) ;;;
  await h CreateTables (fun d => (d, tt)) ;;;
  roleCount <- await h CountRoles
                 (fun d => (d, length (roles (rows d)))) ;;
  when (roleCount =? 0)%nat
    (await h InsertRoles
       (fun d => (insert_role "volunteer"
                    (insert_role "staff" (insert_role "admin" d)), tt))) ;;;
  adminRes <- await h SelectAdmin
                (fun d => (d, filter (fun u => String.eqb (username u) "admin")
                                (users (rows d)))) ;;
  when (length adminRes =? 0)%nat
    (hsh <- await h Hash (fun d => (d, hashed h)) ;;
     roleRes <- await h SelectRole
                  (fun d => (d, find (fun r => String.eqb (role_name r) "admin")
                                  (roles (rows d)))) ;;
     match roleRes with
     | None => throw
     | Some r =>
         await h InsertUser
           (fun d => (insert_user "admin" hsh (role_id r) d, tt))
     end) ;;;
  await h Commit (fun d => (d, tt)).

(** [ensureAdmin] and the [catch] at its call: the database afterwards and
    what was written to the console.  A throw inside [try] leads to
    ROLLBACK and then to the message of [catch]; when [pool.connect] or
    ROLLBACK itself rejects, the promise rejects and the caller logs. *)
Definition ensureAdmin (h : run) (d : db) : db * console :=
  if rejects h Connect then (d, ["Failed to ensure admin user:"])
  else
    match ensureAdmin_try h d with
    | (d', Some _) => (d', [])
    | (d', None) =>
        ({| rows := rows d; roles_seq := roles_seq d';
            users_seq := users_seq d' |},
         if rejects h Rollback then ["Failed to ensure admin user:"]
         else ["Error ensuring admin:"])
    end.

(** The states in which [ensureAdmin] finds nothing to write: there are
    roles, and there is a user [admin] or no role [admin] to give one. *)
Definition settled (d : db) : Prop :=
  (length (roles (rows d)) =? 0)%nat = false
  /\ ((length (filter (fun u => String.eqb (username u) "admin")
                 (users (rows d))) =? 0)%nat = false
      \/ find (fun r => String.eqb (role_name r) "admin") (roles (rows d))
         = None).

(** [req.session]: the [userId] that the login stored, if any. *)
Record session : Type := { userId : option Z }.

(** [isAuthenticated]. *)
Definition isAuthenticated (s : session) : passage :=
  match userId s with
  | Some n => if n =? 0 then Answer (Redirect "/login") else Next
  | None => Answer (Redirect "/login")
  end.

Inductive handler : Type :=
| Home | Register | Contact | LoginPage | LoginSubmit | Logout
| AdminDashboard | AdminAddEvent | AdminAddVolunteer.

(** The tail of a path after a prefix, if the path starts with it. *)
Fixpoint after_prefix (p s : string) : option string :=
  match p, s with
  | EmptyString, _ => Some s
  | String a p', String b s' =>
      if Ascii.eqb a b then after_prefix p' s' else None
  | String _ _, EmptyString => None
  end.

Definition no_slash (s : string) : bool :=
  match s with
  | EmptyString => false
  | _ => negb (existsb (Ascii.eqb "/"%char) (list_ascii_of_string s))
  end.

(** The routes with their guards; [/register/:id] gives the handler its
    parameter. *)
Definition route (m : method) (path : string)
  : option (list (session -> passage) * handler * option string) :=
  match m with
  | GET =>
      if String.eqb path "/" then Some ([], Home, None)
      else if String.eqb path "/login" then Some ([], LoginPage, None)
      else if String.eqb path "/logout" then Some ([], Logout, None)
      else if String.eqb path "/admin"
      then Some ([isAuthenticated], AdminDashboard, None)
      else None
  | POST =>
      if String.eqb path "/contact" then Some ([], Contact, None)
      else if String.eqb path "/login" then Some ([], LoginSubmit, None)
      else if String.eqb path "/admin/add-event"
      then Some ([isAuthenticated], AdminAddEvent, None)
      else if String.eqb path "/admin/add-volunteer"
      then Some ([isAuthenticated], AdminAddVolunteer, None)
      else match after_prefix "/register/" path with
           | Some id => if no_slash id then Some ([], Register, Some id)
                        else None
           | None => None
           end
  end.

Definition dispatch (m : method) (path : string) (s : session)
  : arrival handler :=
  match route m path with
  | None => NoRoute
  | Some (guards, h, _) =>
      match through guards s with
      | Answer r => Stopped r
      | Next => Entered h
      end
  end.

(** The role that the database gives to the user of a session. *)
Definition role_of_session (d : db) (s : session) : option string :=
  match userId s with
  | None => None
  | Some n =>
      match find (fun u => user_id u =? n) (users (rows d)) with
      | None => None
      | Some u =>
          match find (fun r => role_id r =? user_role_id u) (roles (rows d)) with
          | Some r => Some (role_name r)
          | None => None
          end
      end
  end.

(** [POST /login]: [same] is the comparison of bcrypt, [query_err] whether
    the query rejects. *)
Definition login (same : string -> string -> bool) (query_err : bool)
  (d : db) (body : form) (s : session) : response * session :=
  if query_err then (Send 500 "Erreur lors de la connexion.", s)
  else
    match field "username" body with
    | None => (Render "login" (Some "Nom d'utilisateur inconnu"), s)
    | Some n =>
        match find (fun u => String.eqb (username u) n) (users (rows d)) with
        | None => (Render "login" (Some "Nom d'utilisateur inconnu"), s)
        | Some u =>
            match field "password" body with
            | None => (Send 500 "Erreur lors de la connexion.", s)
            | Some pw =>
                if same pw (password u)
                then (Redirect "/admin", {| userId := Some (user_id u) |})
                else (Render "login" (Some "Mot de passe incorrect"), s)
            end
        end
    end.

Section Register.

(** [parseInt(s, 10)], [None] for [NaN]. *)
Variable parseInt : string -> option Z.
(** Whether the table, whose definition is not part of the sources, takes
    the row; a refusal makes [pool.query] reject. *)
Variable accepts : registration -> bool.

(** [POST /register/:id]. *)
Definition register (id : string) (body : form) (d : db) : response * db :=
  let eventId := parseInt id in
  let name := field "name" body in
  let email := field "email" body in
  let r := {| reg_event_id := eventId; reg_name := name;
              reg_email := email |} in
  if accepts r then (Redirect "/", insert_registration r d)
  else (Send 500 "Erreur lors de l'inscription.", d).

End Register.

End Pg.

(* ===================================================================== *)
(** ** The cart as the page shows it, and the rest of the front-end script *)
(* ===================================================================== *)

Module CartView.
Import Js Cart.
Local Open Scope string_scope.

(** [this.items.reduce((s,i) => s + i.qty, 0)], the number in the badge. *)
Definition count (c : cart) : Z :=
  fold_left (fun s i => s + qty i)%Z (items c) 0%Z.

(** The storage holds the serialisation of the current lines. *)
Definition persisted (js : value -> string) (c : cart) : Prop :=
  storage c = Some (js (encode (items c))).

(** The double quote and the line feed, for the markup below. *)
Definition dq : string := String "034"%char EmptyString.

Definition nl : string := String "010"%char EmptyString.

(** What [updateUI] leaves in [#cartItems]: the text assigned to its
    [innerHTML], or the [div.cart-item] children appended to it, each given
    by the text assigned to its [innerHTML]. *)
Inductive listing : Type :=
| Html (text : string)
| Children (rows : list string).

(** The three elements that [updateUI] writes to, each with its content
    when the page has it. *)
Record page : Type := {
  cartCount : option string;
  cartItems : option listing;
  cartTotal : option string
}.

Definition empty_note : string :=
  "<p class=" ++ dq ++ "muted" ++ dq ++ " style=" ++ dq ++ "padding:1rem;"
  ++ dq ++ ">Votre panier est vide.</p>".

Section Render.

Variable toLocaleString : float -> string.
Variable String_of_number : float -> string.

(** [${i.variant? ' · '+i.variant:''}]. *)
Definition variant_suffix (i : line) : string :=
  if truthy_str (variant i)
  then " · " ++ match variant i with Some v => v | None => EmptyString end
  else EmptyString.

(** The template literal assigned to [row.innerHTML]. *)
Definition row_html (i : line) : string :=
  nl ++ "            <img src=" ++ dq ++ img i ++ dq ++ " alt=" ++ dq
  ++ name i ++ dq ++ " style=" ++ dq
  ++ "width:64px; height:64px; object-fit:cover; border-radius:8px; border:1px solid rgba(2,6,23,.1)"
  ++ dq ++ "/>" ++ nl ++ "            <div>" ++ nl
  ++ "              <div style=" ++ dq ++ "font-weight:700" ++ dq ++ ">"
  ++ name i ++ variant_suffix i ++ "</div>" ++ nl
  ++ "              <div class=" ++ dq ++ "muted" ++ dq ++ ">"
  ++ toLocaleString (price i) ++ "</div>" ++ nl ++ "            </div>"
  ++ nl ++ "            <div style=" ++ dq ++ "text-align:right;" ++ dq
  ++ ">" ++ nl ++ "              <div class=" ++ dq ++ "qty" ++ dq ++ ">"
  ++ nl ++ "                <button aria-label=" ++ dq ++ "Diminuer" ++ dq
  ++ " data-act=" ++ dq ++ "dec" ++ dq ++ " data-key=" ++ dq ++ key i ++ dq
  ++ ">−</button>" ++ nl ++ "                <span aria-live=" ++ dq
  ++ "polite" ++ dq ++ ">" ++ String_of_number (number_of_Z (qty i))
  ++ "</span>" ++ nl ++ "                <button aria-label=" ++ dq
  ++ "Augmenter" ++ dq ++ " data-act=" ++ dq ++ "inc" ++ dq ++ " data-key="
  ++ dq ++ key i ++ dq ++ ">+</button>" ++ nl ++ "              </div>"
  ++ nl ++ "              <button class=" ++ dq ++ "btn btn-ghost" ++ dq
  ++ " style=" ++ dq
  ++ "margin-top:6px; padding:.35rem .6rem; font-size:.8rem;" ++ dq
  ++ " data-act=" ++ dq ++ "rm" ++ dq ++ " data-key=" ++ dq ++ key i ++ dq
  ++ ">Retirer</button>" ++ nl ++ "            </div>".

(** [updateUI] on the lines of the cart: the count first, then, only when
    the page has [#cartItems], the list and the total. *)
Definition updateUI (c : cart) (p : page) : page :=
  let counted :=
    match cartCount p with
    | Some _ => Some (String_of_number (number_of_Z (count c)))
    | None => None
    end in
  match cartItems p with
  | None =>
      {| cartCount := counted; cartItems := None; cartTotal := cartTotal p |}
  | Some _ =>
      {| cartCount := counted;
         cartItems :=
           Some (if (length (items c) =? 0)%nat then Html empty_note
                 else Children (map row_html (items c)));
         cartTotal :=
           match cartTotal p with
           | Some _ => Some (toLocaleString (total c))
           | None => None
           end |}
  end.

End Render.

End CartView.

(** The shop filters: the buttons of [#shopFilters] and the product cards
    of [#productGrid]. *)
Module Shop.
Local Open Scope string_scope.

(** A filter button: its [data-filter] and whether its class list holds
    [btn-primary] and [btn-ghost]. *)
Record button : Type := {
  data_filter : option string;
  btn_primary : bool;
  btn_ghost : bool
}.

Inductive display : Type := Unset | Flex | Hidden.

(** A product card: its [data-cat] and its [style.display]. *)
Record card : Type := {
  data_cat : option string;
  shown : display
}.

Record grid : Type := {
  filterButtons : list button;
  products : list card
}.

(** [p.getAttribute('data-cat') || 'merch']. *)
Definition pCat (c : card) : string :=
  match data_cat c with
  | Some (String a s) => String a s
  | _ => "merch"
  end.

(** [cat === 'all' || cat === pCat]. *)
Definition matches (cat : option string) (c : card) : bool :=
  match cat with
  | Some f => String.eqb f "all" || String.eqb f (pCat c)
  | None => false
  end.

Definition primary (b : button) : button :=
  {| data_filter := data_filter b; btn_primary := true; btn_ghost := false |}.

Definition ghost (b : button) : button :=
  {| data_filter := data_filter b; btn_primary := false; btn_ghost := true |}.

(** Every button becomes a ghost button, then the [n]-th the primary
    one. *)
Fixpoint mark (n : nat) (bs : list button) : list button :=
  match bs with
  | [] => []
  | b :: rest =>
      match n with
      | O => primary b :: map ghost rest
      | S m => ghost b :: mark m rest
      end
  end.

(** The click listener of the [n]-th filter button. *)
Definition click (n : nat) (g : grid) : grid :=
  match nth_error (filterButtons g) n with
  | None => g
  | Some btn =>
      let cat := data_filter btn in
      {| filterButtons := mark n (filterButtons g);
         products :=
           map (fun p => {| data_cat := data_cat p;
                            shown := if matches cat p then Flex else Hidden |})
             (products g) |}
  end.

End Shop.

(* ===================================================================== *)
(** ** [server.js] as a whole: the other tables, handlers and seeds *)
(* ===================================================================== *)

Module SqliteSite.
Import Http.
Local Open Scope string_scope.
Local Open Scope Z_scope.

(** A table with AUTOINCREMENT ids: its rows, oldest first, and the last
    id given out. *)
Record table (A : Type) : Type := { rows : list A; seq : Z }.
Arguments rows {A} t.
Arguments seq {A} t.

Definition insert {A : Type} (mk : Z -> A) (t : table A) : table A :=
  {| rows := rows t ++ [mk (seq t + 1)]; seq := seq t + 1 |}.

Definition no_rows {A : Type} : table A := {| rows := []; seq := 0 |}.

Record event : Type := {
  ev_id : Z;
  ev_title : string;
  ev_description : option string;
  ev_date : string;
  ev_start_time : string;
  ev_end_time : option string;
  ev_location : string;
  ev_cost : option string;
  ev_capacity : option string
}.

Record volunteer : Type := {
  vo_id : Z;
  vo_name : string;
  vo_position : string;
  vo_bio : option string;
  vo_photo : option string
}.

Record contact : Type := {
  co_id : Z;
  co_name : string;
  co_email : string;
  co_phone : option string;
  co_subject : option string;
  co_message : string
}.

Record category : Type := { cat_id : Z; cat_name : string }.

Record product : Type := {
  pr_id : Z;
  pr_name : string;
  pr_description : string;
  pr_price : Q;
  pr_image : string;
  pr_category_id : Z
}.

(** The database of the site: roles, users and registrations as before,
    and the other tables that the handlers and seeds write. *)
Record site : Type := {
  core : Sqlite.db;
  events : table event;
  volunteers : table volunteer;
  contacts : table contact;
  categories : table category;
  products : table product
}.

Definition fresh : site :=
  {| core := Sqlite.fresh; events := no_rows; volunteers := no_rows;
     contacts := no_rows; categories := no_rows; products := no_rows |}.

Definition with_core (d : Sqlite.db) (s : site) : site :=
  {| core := d; events := events s; volunteers := volunteers s;
     contacts := contacts s; categories := categories s;
     products := products s |}.

Definition with_events (t : table event) (s : site) : site :=
  {| core := core s; events := t; volunteers := volunteers s;
     contacts := contacts s; categories := categories s;
     products := products s |}.

Definition with_volunteers (t : table volunteer) (s : site) : site :=
  {| core := core s; events := events s; volunteers := t;
     contacts := contacts s; categories := categories s;
     products := products s |}.

Definition with_contacts (t : table contact) (s : site) : site :=
  {| core := core s; events := events s; volunteers := volunteers s;
     contacts := t; categories := categories s; products := products s |}.

Definition with_categories (t : table category) (s : site) : site :=
  {| core := core s; events := events s; volunteers := volunteers s;
     contacts := contacts s; categories := t; products := products s |}.

Definition with_products (t : table product) (s : site) : site :=
  {| core := core s; events := events s; volunteers := volunteers s;
     contacts := contacts s; categories := categories s; products := t |}.

(** [// Seed categories and products] *)
Definition seed_categories (s : site) : site :=
  if (length (rows (categories s)) =? 0)%nat
  then with_categories
         (insert (fun i => {| cat_id := i; cat_name := "broc" |})
            (insert (fun i => {| cat_id := i; cat_name := "merch" |})
               (categories s))) s
  else s.

Definition category_by_name (n : string) (cs : list category)
  : option category :=
  find (fun c => String.eqb (cat_name c) n) cs.

(** The four products of the seed.  [after] tells whether the two lookups
    of the category ids are answered after the categories were inserted;
    [before] is the categories table as the start-up found it. *)
Definition seed_products (after : bool) (before : list category) (s : site)
  : site :=
  if (length (rows (products s)) =? 0)%nat then
    let seen := if after then rows (categories s) else before in
    let merchId := match category_by_name "merch" seen with
                   | Some merchRow => cat_id merchRow
                   | None => 1
                   end in
    let brocId := match category_by_name "broc" seen with
                  | Some brocRow => cat_id brocRow
                  | None => 2
                  end in
    let stmt (n d : string) (p : Q) (im : string) (c : Z) :=
      insert (fun i => {| pr_id := i; pr_name := n; pr_description := d;
                          pr_price := p; pr_image := im;
                          pr_category_id := c |}) in
    with_products
      (stmt "Service d’assiettes vintage (x6)" "Porcelaine – État : Très bon"
         28%Q
         "https://images.unsplash.com/photo-1523419409543-8c1b9b9aa4a0?q=80&w=1200&auto=format&fit=crop"
         brocId
         (stmt "Tote Bag" "Coton épais" 12%Q
            "https://images.unsplash.com/photo-1618354691438-c1d83adfb4b3?q=80&w=1200&auto=format&fit=crop"
            merchId
            (stmt "Hoodie" "Molleton doux – Bleu" 38%Q
               "https://images.unsplash.com/photo-1548883354-7622d03aca27?q=80&w=1200&auto=format&fit=crop"
               merchId
               (stmt "T-shirt PACS/SIMPA" "Coton bio – Blanc" 20%Q
                  "https://images.unsplash.com/photo-1520975682031-ae7c8b1a9a02?q=80&w=1200&auto=format&fit=crop"
                  merchId (products s))))) s
  else s.

Definition seed_shop (after : bool) (s : site) : site :=
  seed_products after (rows (categories s)) (seed_categories s).

(** What the host decides while one request is handled: whether the
    driver reports an error for the insert, for the query of the login and
    for the [n]-th read of a page, and the comparison of bcrypt. *)
Record host : Type := {
  insert_err : bool;
  query_err : bool;
  read_err : nat -> bool;
  same : string -> string -> bool
}.

Record request : Type := {
  meth : method;
  path : string;
  body : form
}.

(** The database together with the session of the one browser that is
    followed. *)
Definition state : Type := (site * Sqlite.session)%type.

(** [fetchHomeData] and [GET /]; the lists given to the view are not
    kept. *)
Definition home (h : host) : response :=
  if read_err h 0 || read_err h 1 || read_err h 2
  then Send 500 "Erreur lors du chargement des données"
  else Render "index" None.

(** [POST /contact]. *)
Definition contact_submit (h : host) (b : form) (s : site)
  : response * site :=
  let name := field "name" b in
  let email := field "email" b in
  let phone := field "phone" b in
  let subject := field "subject" b in
  let message := field "message" b in
  if Sqlite.missing name || Sqlite.missing email || Sqlite.missing message
  then (Send 400 "Veuillez remplir les champs obligatoires.", s)
  else if insert_err h
  then (Send 500 "Erreur lors de l’enregistrement du message.", s)
  else (Redirect "/?contact=1",
        with_contacts
          (insert (fun i => {| co_id := i; co_name := Sqlite.text name;
                               co_email := Sqlite.text email;
                               co_phone := Sqlite.or_null phone;
                               co_subject := Sqlite.or_null subject;
                               co_message := Sqlite.text message |})
             (contacts s)) s).

(** [GET /admin], after the guard: the first read that fails decides the
    message. *)
Definition admin_dashboard (h : host) : response :=
  if read_err h 0
  then Send 500 "Erreur lors de la récupération des événements"
  else if read_err h 1
  then Send 500 "Erreur lors de la récupération des inscriptions"
  else if read_err h 2
  then Send 500 "Erreur lors de la récupération des bénévoles"
  else if read_err h 3
  then Send 500 "Erreur lors de la récupération des messages"
  else if read_err h 4
  then Send 500 "Erreur lors de la récupération des commandes"
  else Render "admin" None.

(** [POST /admin/events/add], after the guard. *)
Definition admin_events_add (h : host) (b : form) (s : site)
  : response * site :=
  let title := field "title" b in
  let description := field "description" b in
  let date := field "date" b in
  let start_time := field "start_time" b in
  let end_time := field "end_time" b in
  let location := field "location" b in
  let cost := field "cost" b in
  let capacity := field "capacity" b in
  if Sqlite.missing title || Sqlite.missing date
     || Sqlite.missing start_time || Sqlite.missing location
  then (Send 400 "Champs obligatoires manquants.", s)
  else if insert_err h
  then (Send 500 "Erreur lors de la création de l’événement", s)
  else (Redirect "/admin",
        with_events
          (insert (fun i => {| ev_id := i; ev_title := Sqlite.text title;
                               ev_description := Sqlite.or_null description;
                               ev_date := Sqlite.text date;
                               ev_start_time := Sqlite.text start_time;
                               ev_end_time := Sqlite.or_null end_time;
                               ev_location := Sqlite.text location;
                               ev_cost := Sqlite.or_null cost;
                               ev_capacity := Sqlite.or_null capacity |})
             (events s)) s).

(** [POST /admin/volunteers/add], after the guard. *)
Definition admin_volunteers_add (h : host) (b : form) (s : site)
  : response * site :=
  let name := field "name" b in
  let position := field "position" b in
  let bio := field "bio" b in
  let photo := field "photo" b in
  if Sqlite.missing name || Sqlite.missing position
  then (Send 400 "Nom et poste obligatoires.", s)
  else if insert_err h
  then (Send 500 "Erreur lors de la création du bénévole", s)
  else (Redirect "/admin",
        with_volunteers
          (insert (fun i => {| vo_id := i; vo_name := Sqlite.text name;
                               vo_position := Sqlite.text position;
                               vo_bio := Sqlite.or_null bio;
                               vo_photo := Sqlite.or_null photo |})
             (volunteers s)) s).

(** One request through the routes, the guards and the handlers.  The
    answer is [None] when no route matches and the request is left to the
    static files and to the defaults of Express. *)
Definition handle (h : host) (r : request) (st : state)
  : option response * state :=
  let (s, sess) := st in
  match Sqlite.dispatch (meth r) (path r) sess with
  | NoRoute => (None, st)
  | Stopped resp => (Some resp, st)
  | Entered Sqlite.Home => (Some (home h), st)
  | Entered Sqlite.EventsRegister =>
      let (resp, d) := Sqlite.events_register (insert_err h) (body r) (core s) in
      (Some resp, (with_core d s, sess))
  | Entered Sqlite.Contact =>
      let (resp, s') := contact_submit h (body r) s in
      (Some resp, (s', sess))
  | Entered Sqlite.LoginPage => (Some (Render "login" None), st)
  | Entered Sqlite.LoginSubmit =>
      let (resp, sess') :=
        Sqlite.login (same h) (query_err h) (core s) (body r) sess in
      (Some resp, (s, sess'))
  | Entered Sqlite.Logout => (Some (Redirect "/"), (s, None))
  | Entered Sqlite.AdminDashboard => (Some (admin_dashboard h), st)
  | Entered Sqlite.AdminEventsAdd =>
      let (resp, s') := admin_events_add h (body r) s in
      (Some resp, (s', sess))
  | Entered Sqlite.AdminVolunteersAdd =>
      let (resp, s') := admin_volunteers_add h (body r) s in
      (Some resp, (s', sess))
  end.

(** The number of rows in all tables. *)
Definition size (s : site) : nat :=
  length (Sqlite.roles (core s)) + length (Sqlite.users (core s))
  + length (Sqlite.registrations (core s))
  + length (rows (events s)) + length (rows (volunteers s))
  + length (rows (contacts s)) + length (rows (categories s))
  + length (rows (products s)).

(** [new] holds the rows of [old], in their order, before anything else. *)
Definition keeps {A : Type} (old new : list A) : Prop :=
  exists added, new = (old ++ added)%list.

Definition keeps_all (old new : site) : Prop :=
  keeps (Sqlite.roles (core old)) (Sqlite.roles (core new))
  /\ keeps (Sqlite.users (core old)) (Sqlite.users (core new))
  /\ keeps (Sqlite.registrations (core old))
       (Sqlite.registrations (core new))
  /\ keeps (rows (events old)) (rows (events new))
  /\ keeps (rows (volunteers old)) (rows (volunteers new))
  /\ keeps (rows (contacts old)) (rows (contacts new))
  /\ keeps (rows (categories old)) (rows (categories new))
  /\ keeps (rows (products old)) (rows (products new)).

End SqliteSite.

(* ===================================================================== *)
(** ** The PostgreSQL server as a whole *)
(* ===================================================================== *)

Module PgSite.
Import Http.
Local Open Scope string_scope.
Local Open Scope Z_scope.

(** Rows as the handlers send them: a field that the form lacks arrives
    as NULL. *)
Record event : Type := {
  ev_title : option string;
  ev_description : option string;
  ev_date : option string;
  ev_time : option string;
  ev_location : option string
}.

Record volunteer : Type := {
  vo_name : option string;
  vo_role : option string;
  vo_bio : option string
}.

Record contact : Type := {
  co_name : option string;
  co_email : option string;
  co_message : option string
}.

Record site : Type := {
  core : Pg.db;
  events : list event;
  volunteers : list volunteer;
  contacts : list contact
}.

Definition with_core (d : Pg.db) (s : site) : site :=
  {| core := d; events := events s; volunteers := volunteers s;
     contacts := contacts s |}.

(** What the host decides while one request is handled.  The definitions
    of the tables other than roles and users are not part of the sources:
    whether a table takes a row is the host's answer, and a refusal makes
    [pool.query] reject. *)
Record host : Type := {
  parseInt : string -> option Z;
  takes_registration : Pg.registration -> bool;
  takes_contact : contact -> bool;
  takes_event : event -> bool;
  takes_volunteer : volunteer -> bool;
  read_err : bool;
  query_err : bool;
  same : string -> string -> bool
}.

Record request : Type := {
  meth : method;
  path : string;
  body : form
}.

Definition state : Type := (site * Pg.session)%type.

(** [GET /]; the rows given to the view are not kept. *)
Definition home (h : host) : response :=
  if read_err h
  then Send 500 "Erreur lors du chargement de la page d'accueil."
  else Render "index" None.

(** [POST /contact]. *)
Definition contact_submit (h : host) (b : form) (s : site)
  : response * site :=
  let c := {| co_name := field "name" b; co_email := field "email" b;
              co_message := field "message" b |} in
  if takes_contact h c
  then (Redirect "/",
        {| core := core s; events := events s; volunteers := volunteers s;
           contacts := contacts s ++ [c] |})
  else (Send 500 "Erreur lors de l'envoi du message.", s).

(** [GET /admin], after the guard. *)
Definition admin_dashboard (h : host) : response :=
  if read_err h
  then Send 500 "Erreur lors du chargement du tableau de bord."
  else Render "admin" None.

(** [POST /admin/add-event], after the guard. *)
Definition admin_add_event (h : host) (b : form) (s : site)
  : response * site :=
  let e := {| ev_title := field "title" b;
              ev_description := field "description" b;
              ev_date := field "date" b; ev_time := field "time" b;
              ev_location := field "location" b |} in
  if takes_event h e
  then (Redirect "/admin",
        {| core := core s; events := events s ++ [e];
           volunteers := volunteers s; contacts := contacts s |})
  else (Send 500 "Erreur lors de l'ajout de l'événement.", s).

(** [POST /admin/add-volunteer], after the guard. *)
Definition admin_add_volunteer (h : host) (b : form) (s : site)
  : response * site :=
  let v := {| vo_name := field "name" b; vo_role := field "role" b;
              vo_bio := field "bio" b |} in
  if takes_volunteer h v
  then (Redirect "/admin",
        {| core := core s; events := events s;
           volunteers := volunteers s ++ [v]; contacts := contacts s |})
  else (Send 500 "Erreur lors de l'ajout du bénévole.", s).

(** One request through the routes, the guard and the handlers; [None]
    when no route matches. *)
Definition handle (h : host) (r : request) (st : state)
  : option response * state :=
  let (s, sess) := st in
  match Pg.route (meth r) (path r) with
  | None => (None, st)
  | Some (guards, hd, param) =>
      match through guards sess with
      | Answer resp => (Some resp, st)
      | Next =>
          match hd with
          | Pg.Home => (Some (home h), st)
          | Pg.Register =>
              let id := match param with
                        | Some i => i
                        | None => EmptyString
                        end in
              let (resp, d) :=
                Pg.register (parseInt h) (takes_registration h) id (body r)
                  (core s) in
              (Some resp, (with_core d s, sess))
          | Pg.Contact =>
              let (resp, s') := contact_submit h (body r) s in
              (Some resp, (s', sess))
          | Pg.LoginPage => (Some (Render "login" None), st)
          | Pg.LoginSubmit =>
              let (resp, sess') :=
                Pg.login (same h) (query_err h) (core s) (body r) sess in
              (Some resp, (s, sess'))
          | Pg.Logout => (Some (Redirect "/"), (s, {| Pg.userId := None |}))
          | Pg.AdminDashboard => (Some (admin_dashboard h), st)
          | Pg.AdminAddEvent =>
              let (resp, s') := admin_add_event h (body r) s in
              (Some resp, (s', sess))
          | Pg.AdminAddVolunteer =>
              let (resp, s') := admin_add_volunteer h (body r) s in
              (Some resp, (s', sess))
          end
      end
  end.

End PgSite.

(* ===================================================================== *)
(** ** Sample data: products that [server.js] seeds, and a small page *)
(* ===================================================================== *)

Module Sample.
Import Js Cart.
Local Open Scope string_scope.

Definition tshirt (v : option string) : product :=
  {| p_id := "1"; p_name := "T-shirt PACS/SIMPA"; p_price := 20%float;
     p_img := "tshirt.jpg"; p_variant := v |}.

Definition tote : product :=
  {| p_id := "3"; p_name := "Tote Bag"; p_price := 12%float;
     p_img := "tote.jpg"; p_variant := None |}.

Definition page : dom :=
  {| has_cartCount := true; has_cartItems := true; has_cartTotal := true |}.

(** Stand-ins for the built-ins of the host, for running the model. *)
Definition stringify (v : value) : string := "[...]".

Definition parse (s : string) : option value :=
  if String.eqb s "[]" then Some (VArr [])
  else if String.eqb s "null" then Some VNull
  else if String.eqb s "{}" then Some (VObj [])
  else None.

Definition euros (q : float) : string := "EUR".

Definition digits (q : float) : string := "N".

(** A PostgreSQL database after the seeding, to which a second account
    with the role [staff] was added. *)
Definition pg_two_users : Pg.db :=
  Pg.insert_user "bob" "hash-of-bob" 2
    (fst (Pg.ensureAdmin (Pg.no_rejection "hash-of-admin") Pg.fresh)).

(** Stand-in for [bcrypt.compare]. *)
Definition same (pw stored : string) : bool :=
  String.eqb ("hash-of-" ++ pw) stored.

End Sample.

(** Requests and start states for walking through the servers. *)
Module Walk.
Import Http.
Local Open Scope string_scope.

(** The SQLite site after its first start on a new database. *)
Definition sqlite_started (hsh : string) (after : bool) : SqliteSite.site :=
  SqliteSite.seed_shop after
    (SqliteSite.with_core
       (fst (Sqlite.bootstrap
               {| Sqlite.hash := Some hsh;
                  Sqlite.lookup_after_roles := after |} Sqlite.fresh))
       SqliteSite.fresh).

Definition sqlite_admin : Sqlite.session_user :=
  {| Sqlite.su_id := 1; Sqlite.su_username := "admin";
     Sqlite.su_role := "admin" |}.

Definition sqlite_get (p : string) : SqliteSite.request :=
  {| SqliteSite.meth := GET; SqliteSite.path := p; SqliteSite.body := [] |}.

Definition sqlite_post (p : string) (b : form) : SqliteSite.request :=
  {| SqliteSite.meth := POST; SqliteSite.path := p; SqliteSite.body := b |}.

Definition credentials (u pw : string) : form :=
  [("username", u); ("password", pw)].

(** The PostgreSQL site after [ensureAdmin] ran on a new database. *)
Definition pg_started (hsh : string) : PgSite.site :=
  {| PgSite.core := fst (Pg.ensureAdmin (Pg.no_rejection hsh) Pg.fresh);
     PgSite.events := []; PgSite.volunteers := []; PgSite.contacts := [] |}.

Definition pg_get (p : string) : PgSite.request :=
  {| PgSite.meth := GET; PgSite.path := p; PgSite.body := [] |}.

Definition pg_post (p : string) (b : form) : PgSite.request :=
  {| PgSite.meth := POST; PgSite.path := p; PgSite.body := b |}.

(** A host on which nothing fails, with a stand-in for bcrypt. *)
Definition sqlite_host : SqliteSite.host :=
  {| SqliteSite.insert_err := false; SqliteSite.query_err := false;
     SqliteSite.read_err := fun _ => false; SqliteSite.same := Sample.same |}.

Definition pg_host : PgSite.host :=
  {| PgSite.parseInt := fun _ => Some 1%Z;
     PgSite.takes_registration := fun _ => true;
     PgSite.takes_contact := fun _ => true;
     PgSite.takes_event := fun _ => true;
     PgSite.takes_volunteer := fun _ => true;
     PgSite.read_err := false; PgSite.query_err := false;
     PgSite.same := Sample.same |}.

(** A shop page with three filter buttons and three cards, one of them
    without [data-cat]. *)
Definition shop_grid : Shop.grid :=
  {| Shop.filterButtons :=
       [ {| Shop.data_filter := Some "all"; Shop.btn_primary := true;
            Shop.btn_ghost := false |};
         {| Shop.data_filter := Some "merch"; Shop.btn_primary := false;
            Shop.btn_ghost := true |};
         {| Shop.data_filter := Some "broc"; Shop.btn_primary := false;
            Shop.btn_ghost := true |} ];
     Shop.products :=
       [ {| Shop.data_cat := Some "merch"; Shop.shown := Shop.Unset |};
         {| Shop.data_cat := None; Shop.shown := Shop.Unset |};
         {| Shop.data_cat := Some "broc"; Shop.shown := Shop.Unset |} ] |}.

End Walk.

(* ===================================================================== *)
(** * Properties *)
(* ===================================================================== *)

(** ** The cart *)

Section CartFacts.
Import Js Cart.
Local Open Scope string_scope.
Local Open Scope list_scope.

Variable JSON_stringify : value -> string.

Lemma seq_all_normal (cs : list completion) :
  Forall (fun c => c = Normal) cs -> seq_all cs = Normal.
Proof.
  induction 1 as [|c cs Hc _ IH]; simpl; [reflexivity|].
  now rewrite Hc, IH.
Qed.

(** On the lines that the cart itself builds, [updateUI] completes. *)
Lemma updateUI_encode (d : dom) (l : list line) :
  updateUI d (encode l) = Normal.
Proof.
  assert (Hc : Forall (fun c => c = Normal) (map count_step (map encode_line l))).
  { apply Forall_map, Forall_map, Forall_forall. intros i _.
    unfold count_step, read_conv, encode_line. simpl.
    destruct (variant i); reflexivity. }
  assert (Hr : Forall (fun c => c = Normal) (map row_step (map encode_line l))).
  { apply Forall_map, Forall_map, Forall_forall. intros i _.
    unfold row_step, read_conv, encode_line. simpl.
    destruct (variant i) as [[|a v]|]; reflexivity. }
  assert (Ht : Forall (fun c => c = Normal) (map total_step (map encode_line l))).
  { apply Forall_map, Forall_map, Forall_forall. intros i _.
    unfold total_step, read_conv, encode_line. simpl.
    destruct (variant i); reflexivity. }
  unfold updateUI, encode.
  rewrite (seq_all_normal _ Hc), (seq_all_normal _ Hr), (seq_all_normal _ Ht).
  destruct (has_cartItems d), (has_cartTotal d); reflexivity.
Qed.

Lemma items_save (c : cart) : items (save JSON_stringify c) = items c.
Proof. reflexivity. Qed.

Lemma find_line_none (k : string) (l : list line) :
  find_line k l = None <-> (forall x, In x l -> key x <> k).
Proof.
  unfold find_line. induction l as [|i l IH]; simpl.
  - split; [intros _ x [] | reflexivity].
  - destruct (String.eqb_spec (key i) k) as [E|E].
    + split; [discriminate|]. intros H. exfalso. apply (H i); auto.
    + rewrite IH. split.
      * intros H x [<-|Hx]; auto.
      * intros H x Hx. apply H. now right.
Qed.

Lemma find_line_some (k : string) (l : list line) (it : line) :
  find_line k l = Some it ->
  exists l1 l2, l = l1 ++ it :: l2 /\ key it = k
                /\ (forall x, In x l1 -> key x <> k).
Proof.
  unfold find_line. induction l as [|i l IH]; simpl; [discriminate|].
  destruct (String.eqb_spec (key i) k) as [E|E].
  - intros [= <-]. exists [], l. repeat split; auto.
  - intros H. destruct (IH H) as (l1 & l2 & -> & Hk & Hl1).
    exists (i :: l1), l2. repeat split; auto.
    intros x [<-|Hx]; auto.
Qed.


Lemma update_found_split (k : string) (f : Z -> Z) (l1 l2 : list line)
  (it : line) :
  key it = k -> (forall x, In x l1 -> key x <> k) ->
  update_found k f (l1 ++ it :: l2) = l1 ++ with_qty it (f (qty it)) :: l2.
Proof.
  intros Hk. induction l1 as [|i l1 IH]; simpl; intros H.
  - rewrite (proj2 (String.eqb_eq _ _) Hk). reflexivity.
  - rewrite (proj2 (String.eqb_neq _ _) (H i (or_introl eq_refl))).
    rewrite IH; auto.
Qed.

Lemma update_found_keys (k : string) (f : Z -> Z) (l : list line) :
  map key (update_found k f l) = map key l.
Proof.
  induction l as [|i l IH]; simpl; [reflexivity|].
  destruct (String.eqb (key i) k); simpl; congruence.
Qed.

Lemma update_found_Forall (P : line -> Prop) (k : string) (f : Z -> Z)
  (l : list line) (it : line) :
  find_line k l = Some it -> P (with_qty it (f (qty it))) ->
  Forall P l -> Forall P (update_found k f l).
Proof.
  intros Hf Hit Hl.
  destruct (find_line_some _ _ _ Hf) as (l1 & l2 & -> & Hk & Hl1).
  rewrite update_found_split by assumption.
  apply Forall_app in Hl as [H1 H2]. apply Forall_app. split; [assumption|].
  inversion H2; subst. now constructor.
Qed.

Lemma filter_other_keys (k : string) (l : list line) :
  (forall x, In x l -> key x <> k) ->
  filter (fun i => negb (String.eqb (key i) k)) l = l.
Proof.
  induction l as [|i l IH]; simpl; intros H; [reflexivity|].
  rewrite (proj2 (String.eqb_neq _ _) (H i (or_introl eq_refl))). simpl.
  rewrite IH; auto.
Qed.






Lemma add_fresh (p : product) (c : cart) :
  (forall x, In x (items c) -> key x <> line_key p) ->
  items (add JSON_stringify p c) = items c ++ [new_line p].
Proof.
  intros H. unfold add.
  now rewrite (proj2 (find_line_none _ _) H).
Qed.


(** C10.  When no line of the cart has key [k], each of [inc(k)], [dec(k)]
    and [remove(k)] leaves the sequence of lines as it was, and the
    re-rendering that [dec] and [remove] trigger completes without a
    throw. *)
Theorem cart_unknown_key_is_noop (k : string) (c : cart) (d : dom) :
  (forall x, In x (items c) -> key x <> k) ->
  items (inc JSON_stringify k c) = items c
  /\ items (dec JSON_stringify k c) = items c
  /\ items (remove JSON_stringify k c) = items c
  /\ updateUI d (encode (items (remove JSON_stringify k c))) = Normal.
Proof.
  intros H. pose proof (proj2 (find_line_none _ _) H) as Hf.
  assert (Hr : items (remove JSON_stringify k c) = items c).
  { unfold remove. simpl. now apply filter_other_keys. }
  repeat split.
  - unfold inc. now rewrite Hf.
  - unfold dec. now rewrite Hf.
  - exact Hr.
  - apply updateUI_encode.
Qed.

Lemma find_line_In (k : string) (l : list line) (it : line) :
  find_line k l = Some it -> In it l /\ key it = k.
Proof.
  intros H. destruct (find_line_some _ _ _ H) as (l1 & l2 & -> & Hk & _).
  split; [|assumption]. apply in_or_app. right. now left.
Qed.

Lemma find_line_unique (l : list line) (it : line) :
  NoDup (map key l) -> In it l -> find_line (key it) l = Some it.
Proof.
  unfold find_line. induction l as [|i l IH]; simpl; [intros _ []|].
  intros Hnd Hin. apply NoDup_cons_iff in Hnd as [Hni Hnd].
  destruct (String.eqb_spec (key i) (key it)) as [E|E].
  - destruct Hin as [->|Hin]; [reflexivity|].
    exfalso. apply Hni. rewrite E. now apply in_map.
  - destruct Hin as [->|Hin]; [congruence|]. now apply IH.
Qed.

Lemma keys_filter_NoDup (g : line -> bool) (l : list line) :
  NoDup (map key l) -> NoDup (map key (filter g l)).
Proof.
  induction l as [|i l IH]; simpl; [auto|].
  intros Hnd. apply NoDup_cons_iff in Hnd as [Hni Hnd].
  destruct (g i); simpl; [|auto].
  constructor; [|auto].
  intros Hin. apply Hni. apply in_map_iff in Hin as (x & Hx & Hin).
  apply filter_In in Hin as [Hin _]. rewrite <- Hx. now apply in_map.
Qed.

Lemma Forall_filter_keep {A : Type} (P : A -> Prop) (g : A -> bool)
  (l : list A) : Forall P l -> Forall P (filter g l).
Proof.
  induction 1 as [|x l Hx _ IH]; simpl; [constructor|].
  destruct (g x); [now constructor|assumption].
Qed.

Lemma well_formed_bump (k : string) (f : Z -> Z) (c : cart) (it : line)
  (s : option string) :
  find_line k (items c) = Some it -> (1 <= f (qty it))%Z ->
  well_formed c ->
  well_formed {| items := update_found k f (items c); storage := s |}.
Proof.
  intros Hf Hq [Hpos Hnd]. split; simpl.
  - apply (update_found_Forall _ k f _ it Hf); assumption.
  - unfold keys. simpl. now rewrite update_found_keys.
Qed.

Lemma well_formed_save (c : cart) :
  well_formed c -> well_formed (save JSON_stringify c).
Proof. intros H. exact H. Qed.

Lemma well_formed_remove (k : string) (c : cart) :
  well_formed c -> well_formed (remove JSON_stringify k c).
Proof.
  intros [Hpos Hnd]. split; simpl.
  - now apply Forall_filter_keep.
  - unfold keys. simpl. now apply keys_filter_NoDup.
Qed.

Lemma well_formed_step (c : cart) (o : op) :
  well_formed c -> well_formed (step JSON_stringify c o).
Proof.
  intros Hwf. pose proof Hwf as [Hpos Hnd].
  destruct o as [p|k|k|k|]; simpl.
  - unfold add. destruct (find_line (line_key p) (items c)) as [it|] eqn:E.
    + destruct (find_line_In _ _ _ E) as [Hin _].
      pose proof (proj1 (Forall_forall _ _) Hpos it Hin) as Hq.
      apply well_formed_save, (well_formed_bump _ _ c it); auto.
      simpl in Hq. lia.
    + split; simpl.
      * apply Forall_app. split; [assumption|].
        constructor; [simpl; lia|constructor].
      * unfold keys. simpl. rewrite map_app. simpl.
        apply NoDup_app; [assumption| |].
        -- constructor; [intros []|constructor].
        -- intros a Ha [<-|[]].
           apply in_map_iff in Ha as (x & Hx & Hin).
           apply (proj1 (find_line_none _ _) E x Hin Hx).
  - unfold inc. destruct (find_line k (items c)) as [it|] eqn:E; [|assumption].
    destruct (find_line_In _ _ _ E) as [Hin _].
    pose proof (proj1 (Forall_forall _ _) Hpos it Hin) as Hq.
    apply well_formed_save, (well_formed_bump _ _ c it); auto.
    simpl in Hq. lia.
  - unfold dec. destruct (find_line k (items c)) as [it|] eqn:E;
      [|now apply well_formed_remove].
    destruct (Z.ltb_spec 1 (qty it)) as [Hlt|Hge];
      [|now apply well_formed_remove].
    apply well_formed_save, (well_formed_bump _ _ c it); auto. lia.
  - now apply well_formed_remove.
  - split; simpl; constructor.
Qed.

Lemma well_formed_run (ops : list op) (c : cart) :
  well_formed c -> well_formed (run JSON_stringify c ops).
Proof.
  unfold run. revert c. induction ops as [|o ops IH]; simpl; [auto|].
  intros c Hc. apply IH. now apply well_formed_step.
Qed.

(** C2.  After any sequence of add, inc, dec, remove and clear from the
    empty cart, every line has a quantity of at least 1; and [dec] on a
    line of such a cart whose quantity is 1 removes that line and nothing
    else, leaving no line with its key. *)
Theorem cart_quantity_at_least_one (ops : list op) (s : option string) :
  Forall (fun i => 1 <= qty i)%Z
    (items (run JSON_stringify (empty s) ops))
  /\ forall it,
       In it (items (run JSON_stringify (empty s) ops)) -> qty it = 1%Z ->
       items (dec JSON_stringify (key it) (run JSON_stringify (empty s) ops))
       = filter (fun i => negb (String.eqb (key i) (key it)))
           (items (run JSON_stringify (empty s) ops))
       /\ ~ In (key it)
            (keys (dec JSON_stringify (key it)
                     (run JSON_stringify (empty s) ops))).
Proof.
  assert (Hwf : well_formed (run JSON_stringify (empty s) ops)).
  { apply well_formed_run. split; constructor. }
  set (c := run JSON_stringify (empty s) ops) in *.
  split; [exact (proj1 Hwf)|].
  intros it Hin Hq.
  assert (Hd : items (dec JSON_stringify (key it) c)
               = filter (fun i => negb (String.eqb (key i) (key it)))
                   (items c)).
  { unfold dec. rewrite (find_line_unique _ _ (proj2 Hwf) Hin), Hq.
    reflexivity. }
  split; [exact Hd|].
  unfold keys. rewrite Hd. intros H.
  apply in_map_iff in H as (x & Hx & Hf).
  apply filter_In in Hf as [_ Hf].
  rewrite (proj2 (String.eqb_eq _ _) Hx) in Hf. discriminate.
Qed.






(** The arithmetic is that of binary64: three times 0.1 gives
    0.30000000000000004, and 0.1, 0.2 and 0.3 add up, in this order, to
    0.6000000000000001. *)
Lemma total_rounds_as_the_code (p : product) :
  total {| items := [with_qty (new_line
                                 {| p_id := p_id p; p_name := p_name p;
                                    p_price := 0.1; p_img := p_img p;
                                    p_variant := None |}) 3];
           storage := None |}
  = 0.30000000000000004%float
  /\ total {| items :=
                map (fun x => new_line {| p_id := p_id p; p_name := p_name p;
                                          p_price := x; p_img := p_img p;
                                          p_variant := None |})
                  [0.1; 0.2; 0.3]%float;
              storage := None |}
     = 0.6000000000000001%float.
Proof. split; reflexivity. Qed.

End CartFacts.

Section CheckoutFacts.
Import Js Cart.
Local Open Scope string_scope.

Variable toLocaleString : float -> string.
Variable String_of_number : float -> string.



End CheckoutFacts.

Section LoadFacts.
Import Js Cart.
Local Open Scope string_scope.

Variable JSON_parse : string -> option value.

(** The text that [load] hands to [JSON.parse]. *)
Lemma load_parse_failure (d : dom) (stored : option string) :
  JSON_parse (match stored with
              | Some (String a s) => String a s
              | _ => "[]"
              end) = None ->
  load JSON_parse d stored = (VArr [], Normal).
Proof.
  intros H. unfold load. rewrite H. simpl.
  destruct (has_cartItems d), (has_cartTotal d); reflexivity.
Qed.

Lemma load_missing (d : dom) :
  JSON_parse "[]" = Some (VArr []) ->
  load JSON_parse d None = (VArr [], Normal).
Proof.
  intros H. unfold load. rewrite H. simpl.
  destruct (has_cartItems d), (has_cartTotal d); reflexivity.
Qed.

(** C7.  [cart.load()] does raise to its caller on some stored values: when
    the stored text is valid JSON for anything but an array, the parse
    succeeds, [this.items] becomes that value and the call of [updateUI],
    which stands outside the [try], throws a TypeError. *)
Theorem load_throws_on_parsed_non_array (d : dom) (s : string) (v : value) :
  s <> EmptyString ->
  JSON_parse s = Some v ->
  (forall l, v <> VArr l) ->
  load JSON_parse d (Some s) = (v, Throw TypeError).
Proof.
  intros Hs Hp Hv. unfold load.
  destruct s as [|a s]; [congruence|]. rewrite Hp.
  destruct v; try reflexivity. exfalso. now apply (Hv elems).
Qed.

End LoadFacts.

(** ** Start-up seeding *)

Section SeedingFacts.
Import Http.
Local Open Scope string_scope.
Local Open Scope Z_scope.

Lemma sqlite_bootstrap_twice (hsh : string) (b : bool) (h2 : Sqlite.seeding)
  (d : Sqlite.db) :
  fst (Sqlite.bootstrap h2
         (fst (Sqlite.bootstrap
                 {| Sqlite.hash := Some hsh; Sqlite.lookup_after_roles := b |}
                 d)))
  = fst (Sqlite.bootstrap
           {| Sqlite.hash := Some hsh; Sqlite.lookup_after_roles := b |} d).
Proof.
  destruct d as [rs rseq us useq regs regseq].
  unfold Sqlite.bootstrap, Sqlite.seed_admin, Sqlite.seed_roles. simpl.
  destruct rs as [|r rs], us as [|u us]; reflexivity.
Qed.

Lemma pg_try_settled (h : Pg.run) (d : Pg.db) :
  Pg.settled d -> fst (Pg.ensureAdmin_try h d) = d.
Proof.
  intros [Hr Hu].
  unfold Pg.ensureAdmin_try, Pg.bind, Pg.await, Pg.when, Pg.ret, Pg.throw.
  destruct (Pg.rejects h Pg.Begin); [reflexivity|].
  destruct (Pg.rejects h Pg.CreateTables); [reflexivity|].
  destruct (Pg.rejects h Pg.CountRoles); [reflexivity|].
  rewrite Hr.
  destruct (Pg.rejects h Pg.SelectAdmin); [reflexivity|].
  destruct Hu as [Hu|Hu].
  - rewrite Hu. destruct (Pg.rejects h Pg.Commit); reflexivity.
  - destruct (length (filter _ _) =? 0)%nat.
    + destruct (Pg.rejects h Pg.Hash); [reflexivity|].
      destruct (Pg.rejects h Pg.SelectRole); [reflexivity|].
      rewrite Hu. reflexivity.
    + destruct (Pg.rejects h Pg.Commit); reflexivity.
Qed.

Lemma pg_ensureAdmin_settled (h : Pg.run) (d : Pg.db) :
  Pg.settled d -> fst (Pg.ensureAdmin h d) = d.
Proof.
  intros Hs. unfold Pg.ensureAdmin.
  destruct (Pg.rejects h Pg.Connect); [reflexivity|].
  pose proof (pg_try_settled h d Hs) as H.
  destruct (Pg.ensureAdmin_try h d) as [d' [u|]]; simpl in *; subst.
  - reflexivity.
  - now destruct d.
Qed.

Lemma filter_admin_snoc (us : list Pg.user) (u : Pg.user) :
  Pg.username u = "admin" ->
  (length (filter (fun x => String.eqb (Pg.username x) "admin") (us ++ [u]))
   =? 0)%nat = false.
Proof.
  intros Hu. rewrite filter_app, length_app. simpl. rewrite Hu. simpl.
  rewrite Nat.add_comm. reflexivity.
Qed.

Lemma nil_or_longer {A : Type} (l : list A) :
  l = [] \/ (length l =? 0)%nat = false.
Proof. destruct l; [now left|now right]. Qed.

Lemma pg_first_run_settles (hsh : string) (d : Pg.db) :
  Pg.settled (fst (Pg.ensureAdmin (Pg.no_rejection hsh) d)).
Proof.
  destruct d as [[rs us regs] rseq useq].
  unfold Pg.settled, Pg.ensureAdmin, Pg.ensureAdmin_try, Pg.bind, Pg.await,
    Pg.when, Pg.ret, Pg.throw, Pg.no_rejection. simpl.
  destruct (nil_or_longer rs) as [->|Hlen]; [simpl|rewrite Hlen; simpl].
  - destruct (filter _ us) as [|a l] eqn:F; simpl.
    + split; [reflexivity|]. left. now apply filter_admin_snoc.
    + split; [reflexivity|]. left. rewrite F. reflexivity.
  - destruct (filter _ us) as [|a l] eqn:F; simpl.
    + destruct (find _ rs) as [ra|] eqn:R; simpl.
      * split; [exact Hlen|]. left. now apply filter_admin_snoc.
      * split; [exact Hlen|]. right. exact R.
    + split; [exact Hlen|]. left. rewrite F. reflexivity.
Qed.

(** C4.  Running the start-up seeding a second time changes nothing: on
    either server, from any database, the state after two runs is the state
    after the first, whatever the host does during the second; and on a new
    database two runs in a row leave exactly the roles admin, staff and
    volunteer and exactly one user, [admin], with the role admin. *)
Theorem bootstrap_is_idempotent (hsh : string) :
  (forall b h2 d,
     fst (Sqlite.bootstrap h2
            (fst (Sqlite.bootstrap
                    {| Sqlite.hash := Some hsh;
                       Sqlite.lookup_after_roles := b |} d)))
     = fst (Sqlite.bootstrap
              {| Sqlite.hash := Some hsh; Sqlite.lookup_after_roles := b |} d))
  /\ (forall b h2,
        fst (Sqlite.bootstrap h2
               (fst (Sqlite.bootstrap
                       {| Sqlite.hash := Some hsh;
                          Sqlite.lookup_after_roles := b |} Sqlite.fresh)))
        = {| Sqlite.roles :=
               [ {| Sqlite.role_id := 1; Sqlite.role_name := "admin" |};
                 {| Sqlite.role_id := 2; Sqlite.role_name := "staff" |};
                 {| Sqlite.role_id := 3; Sqlite.role_name := "volunteer" |} ];
             Sqlite.roles_seq := 3;
             Sqlite.users :=
               [ {| Sqlite.user_id := 1; Sqlite.username := "admin";
                    Sqlite.password := hsh; Sqlite.user_role_id := 1 |} ];
             Sqlite.users_seq := 1;
             Sqlite.registrations := [];
             Sqlite.registrations_seq := 0 |})
  /\ (forall h2 d,
        fst (Pg.ensureAdmin h2 (fst (Pg.ensureAdmin (Pg.no_rejection hsh) d)))
        = fst (Pg.ensureAdmin (Pg.no_rejection hsh) d))
  /\ forall h2,
       fst (Pg.ensureAdmin h2
              (fst (Pg.ensureAdmin (Pg.no_rejection hsh) Pg.fresh)))
       = {| Pg.rows :=
            {| Pg.roles :=
                 [ {| Pg.role_id := 1; Pg.role_name := "admin" |};
                   {| Pg.role_id := 2; Pg.role_name := "staff" |};
                   {| Pg.role_id := 3; Pg.role_name := "volunteer" |} ];
               Pg.users :=
                 [ {| Pg.user_id := 1; Pg.username := "admin";
                      Pg.password := hsh; Pg.user_role_id := 1 |} ];
               Pg.registrations := [] |};
            Pg.roles_seq := 3;
            Pg.users_seq := 1 |}.
Proof.
  split; [|split; [|split]].
  - intros b h2 d. apply sqlite_bootstrap_twice.
  - intros b h2. rewrite sqlite_bootstrap_twice. destruct b; reflexivity.
  - intros h2 d. apply pg_ensureAdmin_settled, pg_first_run_settles.
  - intros h2.
    rewrite (pg_ensureAdmin_settled h2 _ (pg_first_run_settles hsh Pg.fresh)).
    reflexivity.
Qed.

(** X16.  On PostgreSQL the seeding is one transaction: either nothing of
    it is kept and the console has the failure, or it committed and the
    database has roles and a user [admin]. *)
Lemma pg_ensureAdmin_atomic (h : Pg.run) (d : Pg.db) :
  (Pg.rows (fst (Pg.ensureAdmin h d)) = Pg.rows d
   /\ snd (Pg.ensureAdmin h d) <> [])
  \/ (snd (Pg.ensureAdmin h d) = []
      /\ Pg.roles (Pg.rows (fst (Pg.ensureAdmin h d))) <> []
      /\ exists u, In u (Pg.users (Pg.rows (fst (Pg.ensureAdmin h d))))
                   /\ Pg.username u = "admin").
Proof.
  unfold Pg.ensureAdmin.
  destruct (Pg.rejects h Pg.Connect); [left; split; [reflexivity|discriminate]|].
  destruct (Pg.ensureAdmin_try h d) as [d' [u|]] eqn:E; simpl.
  2:{ left. split; [reflexivity|]. destruct (Pg.rejects h Pg.Rollback); discriminate. }
  right. split; [reflexivity|].
  revert E.
  unfold Pg.ensureAdmin_try, Pg.bind, Pg.await, Pg.when, Pg.ret, Pg.throw.
  destruct (Pg.rejects h Pg.Begin); [discriminate|].
  destruct (Pg.rejects h Pg.CreateTables); [discriminate|].
  destruct (Pg.rejects h Pg.CountRoles); [discriminate|].
  destruct d as [[rs us regs] rseq useq]. simpl.
  assert (Hin : forall l : list Pg.user,
             filter (fun u => String.eqb (Pg.username u) "admin") us <> [] ->
             exists x, In x (us ++ l) /\ Pg.username x = "admin").
  { intros l Hne.
    destruct (filter _ us) as [|a t] eqn:F; [congruence|].
    assert (Ha : In a (filter (fun u => String.eqb (Pg.username u) "admin") us))
      by (rewrite F; now left).
    apply filter_In in Ha as [Ha Hn]. exists a. split.
    - apply in_or_app. now left.
    - now apply String.eqb_eq. }
  destruct (nil_or_longer rs) as [->|Hlen]; [simpl|rewrite Hlen; simpl].
  - destruct (Pg.rejects h Pg.InsertRoles); [discriminate|]. simpl.
    destruct (Pg.rejects h Pg.SelectAdmin); [discriminate|].
    destruct (filter _ us) as [|a t] eqn:F; simpl.
    + destruct (Pg.rejects h Pg.Hash); [discriminate|].
      destruct (Pg.rejects h Pg.SelectRole); [discriminate|]. simpl.
      destruct (Pg.rejects h Pg.InsertUser); [discriminate|]. simpl.
      destruct (Pg.rejects h Pg.Commit); [discriminate|].
      intros [= <- _]. simpl. split; [discriminate|].
      eexists. split; [apply in_or_app; right; left; reflexivity|reflexivity].
    + destruct (Pg.rejects h Pg.Commit); [discriminate|].
      intros [= <- _]. simpl. split; [discriminate|].
      destruct (Hin [] ltac:(discriminate)) as (x & Hx & Hn).
      rewrite app_nil_r in Hx. eauto.
  - destruct (Pg.rejects h Pg.SelectAdmin); [discriminate|].
    destruct (filter _ us) as [|a t] eqn:F; simpl.
    + destruct (Pg.rejects h Pg.Hash); [discriminate|].
      destruct (Pg.rejects h Pg.SelectRole); [discriminate|]. simpl.
      destruct (find _ rs) as [ra|]; [|discriminate].
      destruct (Pg.rejects h Pg.InsertUser); [discriminate|]. simpl.
      destruct (Pg.rejects h Pg.Commit); [discriminate|].
      intros [= <- _]. simpl. split; [now destruct rs|].
      eexists. split; [apply in_or_app; right; left; reflexivity|reflexivity].
    + destruct (Pg.rejects h Pg.Commit); [discriminate|].
      intros [= <- _]. simpl. split; [now destruct rs|].
      destruct (Hin [] ltac:(discriminate)) as (x & Hx & Hn).
      rewrite app_nil_r in Hx. eauto.
Qed.

(** C5.  On SQLite the seeding is not one atomic unit: when [bcrypt.hash]
    reports an error on a new database, the three roles stay in the table,
    no user is written, nothing is undone and nothing reaches the
    console. *)
Theorem sqlite_seeding_keeps_partial_writes (b : bool) :
  Sqlite.bootstrap {| Sqlite.hash := None; Sqlite.lookup_after_roles := b |}
    Sqlite.fresh
  = ({| Sqlite.roles :=
          [ {| Sqlite.role_id := 1; Sqlite.role_name := "admin" |};
            {| Sqlite.role_id := 2; Sqlite.role_name := "staff" |};
            {| Sqlite.role_id := 3; Sqlite.role_name := "volunteer" |} ];
        Sqlite.roles_seq := 3;
        Sqlite.users := [];
        Sqlite.users_seq := 0;
        Sqlite.registrations := [];
        Sqlite.registrations_seq := 0 |}, []).
Proof. reflexivity. Qed.

End SeedingFacts.

(** ** Guards of the admin routes *)

Section GuardFacts.
Import Http.
Local Open Scope string_scope.
Local Open Scope Z_scope.

Lemma requireAdmin_stops (s : Sqlite.session) :
  (s = None \/ exists u, s = Some u /\ Sqlite.su_role u <> "admin") ->
  Sqlite.requireAdmin s = Answer (Redirect "/login").
Proof.
  intros [->|(u & -> & Hu)]; simpl; [reflexivity|].
  now rewrite (proj2 (String.eqb_neq _ _) Hu).
Qed.

(** On the SQLite server the three admin routes answer a request without
    an admin session with a redirect to the login page, before the body of
    the handler. *)
Lemma sqlite_admin_routes_guarded (s : Sqlite.session) :
  (s = None \/ exists u, s = Some u /\ Sqlite.su_role u <> "admin") ->
  Sqlite.dispatch GET "/admin" s = Stopped (Redirect "/login")
  /\ Sqlite.dispatch POST "/admin/events/add" s = Stopped (Redirect "/login")
  /\ Sqlite.dispatch POST "/admin/volunteers/add" s
     = Stopped (Redirect "/login")
  /\ status_of (Redirect "/login") = 302.
Proof.
  intros H. unfold Sqlite.dispatch. simpl.
  rewrite (requireAdmin_stops s H). repeat split.
Qed.

Lemma isAuthenticated_passes (n : Z) :
  n <> 0 -> Pg.isAuthenticated {| Pg.userId := Some n |} = Next.
Proof.
  intros H. unfold Pg.isAuthenticated. simpl.
  now rewrite (proj2 (Z.eqb_neq _ _) H).
Qed.

(** C3.  On the PostgreSQL server the guard of the admin routes looks only
    at [session.userId]: a user whose role is [staff] logs in, and the
    requests of that session to the dashboard and to the two admin forms
    reach the bodies of their handlers. *)
Theorem pg_admin_routes_ignore_role :
  Pg.login Sample.same false Sample.pg_two_users
    [("username", "bob"); ("password", "bob")] {| Pg.userId := None |}
  = (Redirect "/admin", {| Pg.userId := Some 2 |})
  /\ Pg.role_of_session Sample.pg_two_users {| Pg.userId := Some 2 |}
     = Some "staff"
  /\ Pg.dispatch GET "/admin" {| Pg.userId := Some 2 |}
     = Entered Pg.AdminDashboard
  /\ Pg.dispatch POST "/admin/add-event" {| Pg.userId := Some 2 |}
     = Entered Pg.AdminAddEvent
  /\ Pg.dispatch POST "/admin/add-volunteer" {| Pg.userId := Some 2 |}
     = Entered Pg.AdminAddVolunteer.
Proof. repeat split. Qed.

End GuardFacts.

(** ** Event registration *)

Section RegisterFacts.
Import Http.
Local Open Scope string_scope.
Local Open Scope Z_scope.

(** X15.  On the SQLite server, for a form that sends no field twice, a
    registration without event, name or email is answered with 400 and the
    table keeps its rows; with the three fields, and no error of the
    driver, exactly one row is added and the answer is a redirect to the
    home view with the success flag. *)
Lemma sqlite_register_validates (insert_err : bool) (body : form)
  (d : Sqlite.db) (Hbody : NoDup (map fst body)) :
  (Sqlite.missing (field "event_id" body) = true
   \/ Sqlite.missing (field "name" body) = true
   \/ Sqlite.missing (field "email" body) = true ->
   Sqlite.events_register insert_err body d
   = (Send 400 "Tous les champs requis manquent.", d))
  /\ (forall e n m,
        field "event_id" body = Some e -> e <> EmptyString ->
        field "name" body = Some n -> n <> EmptyString ->
        field "email" body = Some m -> m <> EmptyString ->
        Sqlite.events_register false body d
        = (Redirect "/?success=1",
           Sqlite.insert_registration e n m
             (Sqlite.or_null (field "phone" body)) d)
        /\ Sqlite.registrations
             (snd (Sqlite.events_register false body d))
           = (Sqlite.registrations d
              ++ [{| Sqlite.reg_id := Sqlite.registrations_seq d + 1;
                     Sqlite.reg_event_id := e; Sqlite.reg_name := n;
                     Sqlite.reg_email := m;
                     Sqlite.reg_phone :=
                       Sqlite.or_null (field "phone" body) |}])%list).
Proof.
  split.
  - intros H. unfold Sqlite.events_register.
    destruct H as [H|[H|H]]; rewrite H; simpl;
      rewrite ?orb_true_r; reflexivity.
  - intros e n m He He' Hn Hn' Hm Hm'. unfold Sqlite.events_register.
    rewrite He, Hn, Hm.
    destruct e; [congruence|]. destruct n; [congruence|].
    destruct m; [congruence|]. simpl. split; reflexivity.
Qed.

Variable parseInt : string -> option Z.
Variable accepts : Pg.registration -> bool.

(** C6.  On the PostgreSQL server the registration handler validates
    nothing: a POST to [/register/1] whose body has a name and no email is
    handed to the database as it is.  If the table takes the row, a
    registration without email is created and the answer is a redirect to
    [/]; if it refuses, the answer is 500.  In neither case is it 400. *)
Theorem pg_register_skips_validation (d : Pg.db) :
  Pg.route POST "/register/1" = Some ([], Pg.Register, Some "1")
  /\ ((accepts {| Pg.reg_event_id := parseInt "1";
                 Pg.reg_name := Some "Ann"; Pg.reg_email := None |} = true
       /\ Pg.register parseInt accepts "1" [("name", "Ann")] d
          = (Redirect "/",
             Pg.insert_registration
               {| Pg.reg_event_id := parseInt "1";
                  Pg.reg_name := Some "Ann"; Pg.reg_email := None |} d))
      \/ (accepts {| Pg.reg_event_id := parseInt "1";
                    Pg.reg_name := Some "Ann"; Pg.reg_email := None |} = false
          /\ Pg.register parseInt accepts "1" [("name", "Ann")] d
             = (Send 500 "Erreur lors de l'inscription.", d)))
  /\ status_of (fst (Pg.register parseInt accepts "1" [("name", "Ann")] d))
     <> 400.
Proof.
  unfold Pg.register. simpl.
  split; [reflexivity|].
  destruct (accepts _); simpl; split; auto; discriminate.
Qed.

End RegisterFacts.

(** ** Worked instances *)

Section Instances.
Import Js Cart.
Local Open Scope string_scope.


Lemma cart_quantity_at_least_one_witness :
  Forall (fun i => 1 <= qty i)%Z
    (items (run Sample.stringify (empty None)
              [OAdd Sample.tote; OInc "3"; ODec "3";
               OAdd (Sample.tshirt (Some "L"))]))
  /\ ~ In "3"
        (keys (dec Sample.stringify "3"
                 (run Sample.stringify (empty None)
                    [OAdd Sample.tote; OInc "3"; ODec "3";
                     OAdd (Sample.tshirt (Some "L"))]))).
Proof.
  destruct (cart_quantity_at_least_one Sample.stringify
              [OAdd Sample.tote; OInc "3"; ODec "3";
               OAdd (Sample.tshirt (Some "L"))] None) as [H1 H2].
  split; [exact H1|].
  exact (proj2 (H2 (new_line Sample.tote) (or_introl eq_refl) eq_refl)).
Defined.

Lemma cart_unknown_key_is_noop_witness :
  items (inc Sample.stringify "9"
           (add Sample.stringify Sample.tote (empty None)))
  = [new_line Sample.tote]
  /\ items (dec Sample.stringify "9"
              (add Sample.stringify Sample.tote (empty None)))
     = [new_line Sample.tote]
  /\ items (remove Sample.stringify "9"
              (add Sample.stringify Sample.tote (empty None)))
     = [new_line Sample.tote]
  /\ updateUI Sample.page
       (encode (items (remove Sample.stringify "9"
                         (add Sample.stringify Sample.tote (empty None)))))
     = Normal.
Proof.
  apply (cart_unknown_key_is_noop Sample.stringify "9"
           (add Sample.stringify Sample.tote (empty None)) Sample.page).
  intros x [<-|[]]. discriminate.
Defined.


Lemma load_throws_on_parsed_non_array_witness :
  load Sample.parse Sample.page (Some "null") = (VNull, Throw TypeError)
  /\ load Sample.parse Sample.page (Some "{}") = (VObj [], Throw TypeError).
Proof.
  split.
  - apply (load_throws_on_parsed_non_array Sample.parse Sample.page "null"
             VNull); [discriminate|reflexivity|discriminate].
  - apply (load_throws_on_parsed_non_array Sample.parse Sample.page "{}"
             (VObj [])); [discriminate|reflexivity|discriminate].
Defined.

End Instances.

(** ** More on the cart: what its operations add up to *)

Section CartMore.
Import Js Cart.
Local Open Scope string_scope.
Local Open Scope list_scope.

Variable JSON_stringify : value -> string.

Lemma count_shift (l : list line) (a : Z) :
  fold_left (fun s i => s + qty i)%Z l a
  = (a + fold_left (fun s i => s + qty i)%Z l 0)%Z.
Proof.
  revert a. induction l as [|i l IH]; simpl; intros a; [lia|].
  rewrite (IH (a + qty i)%Z), (IH (qty i)). lia.
Qed.





(** X1.  In every cart reached from the empty cart no key occurs twice:
    there is at most one line per product and variant. *)
Theorem cart_keys_unique (ops : list op) (s : option string) :
  NoDup (keys (run JSON_stringify (empty s) ops))
  /\ forall i j,
       In i (items (run JSON_stringify (empty s) ops)) ->
       In j (items (run JSON_stringify (empty s) ops)) ->
       key i = key j -> i = j.
Proof.
  assert (Hwf : well_formed (run JSON_stringify (empty s) ops)).
  { apply well_formed_run. split; constructor. }
  destruct Hwf as [_ Hnd]. split; [exact Hnd|].
  intros i j Hi Hj Hk.
  pose proof (find_line_unique _ _ Hnd Hi) as Fi.
  pose proof (find_line_unique _ _ Hnd Hj) as Fj.
  rewrite Hk in Fi. congruence.
Qed.





Lemma items_remove (k : string) (c : cart) :
  items (remove JSON_stringify k c)
  = filter (fun i => negb (String.eqb (key i) k)) (items c).
Proof. reflexivity. Qed.

(** X4.  After [remove(k)] no line has key [k], the other lines are all
    still there, and a second [remove(k)] changes nothing. *)
Theorem cart_remove_clears_key (k : string) (c : cart) :
  find_line k (items (remove JSON_stringify k c)) = None
  /\ (forall x, In x (items (remove JSON_stringify k c))
                <-> In x (items c) /\ key x <> k)
  /\ remove JSON_stringify k (remove JSON_stringify k c)
     = remove JSON_stringify k c.
Proof.
  assert (Hin : forall x, In x (items (remove JSON_stringify k c))
                          <-> In x (items c) /\ key x <> k).
  { intros x. unfold remove. simpl. rewrite filter_In.
    destruct (String.eqb_spec (key x) k); simpl; intuition congruence. }
  assert (Hf : forall x, In x (items (remove JSON_stringify k c)) ->
                         key x <> k) by (intros x Hx; now apply Hin).
  split; [now apply find_line_none|]. split; [exact Hin|].
  unfold remove at 1. simpl items at 1.
  unfold remove in Hf. simpl in Hf.
  unfold remove. simpl. rewrite (filter_other_keys k _ Hf). reflexivity.
Qed.

(** X5.  Adding a product whose key is not in the cart and then removing
    that key gives back the lines as they were. *)
Theorem cart_add_remove_round_trip (p : product) (c : cart) :
  (forall x, In x (items c) -> key x <> line_key p) ->
  items (remove JSON_stringify (line_key p) (add JSON_stringify p c))
  = items c.
Proof.
  intros H. rewrite items_remove.
  rewrite (add_fresh JSON_stringify p c H), filter_app. simpl.
  rewrite String.eqb_refl. simpl.
  rewrite (filter_other_keys _ _ H). apply app_nil_r.
Qed.

(** X6.  Every operation that changes the lines leaves the storage holding
    the serialisation of the new lines, and no operation breaks that once
    it holds. *)
Theorem cart_storage_follows_items (c : cart) (o : op) :
  (items (step JSON_stringify c o) <> items c ->
   CartView.persisted JSON_stringify (step JSON_stringify c o))
  /\ (CartView.persisted JSON_stringify c ->
      CartView.persisted JSON_stringify (step JSON_stringify c o)).
Proof.
  unfold CartView.persisted.
  destruct o as [p|k|k|k|]; simpl.
  - split; intros _; reflexivity.
  - unfold inc. destruct (find_line k (items c)).
    + split; intros _; reflexivity.
    + split; [intros H; now elim H|auto].
  - unfold dec. destruct (find_line k (items c)) as [it|];
      [destruct (1 <? qty it)%Z|]; split; intros _; reflexivity.
  - split; intros _; reflexivity.
  - split; intros _; reflexivity.
Qed.

End CartMore.

Section CartReload.
Import Js Cart.
Local Open Scope string_scope.
Local Open Scope list_scope.

Variable JSON_parse : string -> option value.
Variable JSON_stringify : value -> string.

Lemma count_at_least_length (l : list line) :
  Forall (fun i => 1 <= qty i)%Z l ->
  (Z.of_nat (length l) <= fold_left (fun s i => s + qty i)%Z l 0)%Z.
Proof.
  induction 1 as [|i l Hi _ IH]; simpl; [lia|].
  rewrite count_shift. lia.
Qed.

(** X7.  In every cart reached from the empty cart the number in the badge
    is at least the number of lines, so it is 0 exactly when the cart has
    no line. *)
Theorem cart_count_zero_iff_empty (ops : list op) (s : option string) :
  (Z.of_nat (length (items (run JSON_stringify (empty s) ops)))
   <= CartView.count (run JSON_stringify (empty s) ops))%Z
  /\ (CartView.count (run JSON_stringify (empty s) ops) = 0%Z
      <-> items (run JSON_stringify (empty s) ops) = []).
Proof.
  assert (Hwf : well_formed (run JSON_stringify (empty s) ops)).
  { apply well_formed_run. split; constructor. }
  destruct Hwf as [Hpos _].
  pose proof (count_at_least_length _ Hpos) as Hle.
  split; [exact Hle|]. unfold CartView.count in *. split.
  - intros H0. rewrite H0 in Hle.
    destruct (items (run JSON_stringify (empty s) ops));
      [reflexivity|simpl in Hle; lia].
  - intros ->. reflexivity.
Qed.

(** X8.  What [save] wrote, [load] reads back: when the parser returns the
    value that the serialiser was given, loading the stored text gives the
    lines of the cart and completes. *)
Theorem cart_save_load_round_trip (d : dom) (c : cart) :
  JSON_stringify (encode (items c)) <> EmptyString ->
  JSON_parse (JSON_stringify (encode (items c))) = Some (encode (items c)) ->
  load JSON_parse d (storage (save JSON_stringify c))
  = (encode (items c), Normal).
Proof.
  intros Hne Hp. unfold load, save. simpl.
  destruct (JSON_stringify (encode (items c))) as [|a t] eqn:E;
    [congruence|].
  rewrite Hp, updateUI_encode. reflexivity.
Qed.

(** X9.  [load] falls back to the empty cart and completes when the entry
    is missing or empty (the text [[]] is parsed instead) and when the
    stored text is not JSON. *)
Theorem load_degrades_to_empty (d : dom) (stored : option string) :
  (stored = None \/ stored = Some EmptyString ->
   JSON_parse "[]" = Some (VArr []) ->
   load JSON_parse d stored = (VArr [], Normal))
  /\ (forall s, stored = Some s -> s <> EmptyString ->
      JSON_parse s = None ->
      load JSON_parse d stored = (VArr [], Normal)).
Proof.
  assert (He : updateUI d (VArr []) = Normal).
  { simpl. destruct (has_cartItems d), (has_cartTotal d); reflexivity. }
  split.
  - intros [->| ->] Hp; unfold load; rewrite Hp, He; reflexivity.
  - intros s -> Hs Hp. unfold load.
    destruct s as [|a t]; [congruence|]. rewrite Hp, He. reflexivity.
Qed.

Lemma to_primitive_throws_TypeError :
  forall v, to_primitive v = Normal \/ to_primitive v = Throw TypeError.
Proof.
  fix IH 1. intros [| | | |elems|props]; simpl; auto.
  - induction elems as [|x rest IHl]; simpl; auto.
    destruct (IH x) as [-> | ->]; simpl; auto.
  - destruct (has_own "toString" props); auto.
Qed.

Lemma count_step_throws_TypeError (i : value) :
  count_step i = Normal \/ count_step i = Throw TypeError.
Proof.
  unfold count_step, read_conv.
  destruct i; simpl; auto.
  destruct (lookup "qty" props) as [v|]; simpl; auto.
  apply to_primitive_throws_TypeError.
Qed.

Lemma count_reduce_null (l : list value) :
  In VNull l -> seq_all (map count_step l) = Throw TypeError.
Proof.
  induction l as [|x l IH]; simpl; [intros []|].
  intros [->|Hin]; [reflexivity|].
  destruct (count_step_throws_TypeError x) as [-> | ->]; simpl; auto.
Qed.

(** X10.  A stored array with a [null] entry makes [load] throw a
    TypeError: the parse succeeds, and the first [reduce] of [updateUI]
    reads [qty] of [null]. *)
Theorem load_throws_on_null_entry (d : dom) (s : string) (l : list value) :
  s <> EmptyString ->
  JSON_parse s = Some (VArr l) ->
  In VNull l ->
  load JSON_parse d (Some s) = (VArr l, Throw TypeError).
Proof.
  intros Hs Hp Hin. unfold load.
  destruct s as [|a t]; [congruence|]. rewrite Hp.
  unfold updateUI. now rewrite (count_reduce_null l Hin).
Qed.

End CartReload.

Section RenderFacts.
Import Js Cart.
Local Open Scope string_scope.

Variable toLocaleString : float -> string.
Variable String_of_number : float -> string.

Lemma ends_with_refl (t : string) : exists pre, t = pre ++ t.
Proof. now exists EmptyString. Qed.

Lemma ends_with_app (t a r : string) :
  (exists pre, r = pre ++ t) -> exists pre, a ++ r = pre ++ t.
Proof.
  intros [pre ->]. exists (a ++ pre).
  induction a as [|x a IH]; simpl; [reflexivity|]. now rewrite IH.
Qed.

Lemma row_html_ends (i : line) :
  exists pre,
    CartView.row_html toLocaleString String_of_number i
    = pre ++ " data-act=" ++ CartView.dq ++ "rm" ++ CartView.dq
      ++ " data-key=" ++ CartView.dq ++ key i ++ CartView.dq
      ++ ">Retirer</button>" ++ CartView.nl ++ "            </div>".
Proof.
  unfold CartView.row_html.
  repeat first [apply ends_with_refl | apply ends_with_app].
Qed.

(** X11.  Rendering twice is rendering once; an element that the page
    lacks stays absent; without [#cartItems] the total shown is left as it
    was; with it, the empty note is what the list holds exactly when the
    cart has no line, and otherwise the list has one row per line, in the
    order of the lines, each given by markup that ends with the remove
    button, in which the key of the line is written as it is. *)
Theorem updateUI_is_a_projection (c : cart) (p : CartView.page) :
  CartView.updateUI toLocaleString String_of_number c
    (CartView.updateUI toLocaleString String_of_number c p)
  = CartView.updateUI toLocaleString String_of_number c p
  /\ (CartView.cartItems p = None ->
      CartView.cartTotal
        (CartView.updateUI toLocaleString String_of_number c p)
      = CartView.cartTotal p)
  /\ (CartView.cartItems p <> None ->
      (items c = [] ->
       CartView.cartItems
         (CartView.updateUI toLocaleString String_of_number c p)
       = Some (CartView.Html
                 ("<p class=" ++ CartView.dq ++ "muted" ++ CartView.dq
                  ++ " style=" ++ CartView.dq ++ "padding:1rem;"
                  ++ CartView.dq ++ ">Votre panier est vide.</p>")))
      /\ (items c <> [] ->
          exists rs,
            CartView.cartItems
              (CartView.updateUI toLocaleString String_of_number c p)
            = Some (CartView.Children rs)
            /\ length rs = length (items c)
            /\ Forall2
                 (fun i r =>
                    exists pre,
                      r = pre ++ " data-act=" ++ CartView.dq ++ "rm"
                          ++ CartView.dq ++ " data-key=" ++ CartView.dq
                          ++ key i ++ CartView.dq ++ ">Retirer</button>"
                          ++ CartView.nl ++ "            </div>")
                 (items c) rs)).
Proof.
  destruct p as [cnt lst tot]. unfold CartView.updateUI.
  cbn [CartView.cartCount CartView.cartItems CartView.cartTotal].
  split; [|split].
  - destruct cnt, lst, tot; reflexivity.
  - intros ->. reflexivity.
  - intros H. destruct lst as [x|]; [|congruence].
    cbn [CartView.cartCount CartView.cartItems CartView.cartTotal]. split.
    + intros ->. reflexivity.
    + intros Hne. destruct (items c) as [|i l] eqn:E; [congruence|].
      exists (map (CartView.row_html toLocaleString String_of_number)
                (i :: l)).
      split; [reflexivity|]. split; [apply length_map|].
      clear E Hne. generalize (i :: l). intros l'.
      induction l' as [|j l' IH]; cbn [map]; constructor; [|exact IH].
      apply row_html_ends.
Qed.

End RenderFacts.

(** ** Shop filters *)

Section ShopFacts.
Local Open Scope string_scope.
Local Open Scope list_scope.

Lemma nth_error_mark (n j : nat) (bs : list Shop.button) :
  nth_error (Shop.mark n bs) j
  = option_map (if Nat.eqb j n then Shop.primary else Shop.ghost)
      (nth_error bs j).
Proof.
  revert n j. induction bs as [|b bs IH]; intros n j; simpl.
  - now destruct n, j.
  - destruct n as [|n], j as [|j]; simpl; try reflexivity.
    + rewrite nth_error_map. reflexivity.
    + apply IH.
Qed.

Lemma ghost_twice (bs : list Shop.button) :
  map Shop.ghost (map Shop.ghost bs) = map Shop.ghost bs.
Proof. rewrite map_map. reflexivity. Qed.

Lemma mark_ghosts (m : nat) (bs : list Shop.button) :
  Shop.mark m (map Shop.ghost bs) = Shop.mark m bs.
Proof.
  revert m. induction bs as [|b bs IH]; intros m; simpl; [now destruct m|].
  destruct m; simpl; [now rewrite ghost_twice|]. f_equal. apply IH.
Qed.

Lemma ghosts_mark (n : nat) (bs : list Shop.button) :
  map Shop.ghost (Shop.mark n bs) = map Shop.ghost bs.
Proof.
  revert n. induction bs as [|b bs IH]; intros n; simpl; [now destruct n|].
  destruct n; simpl; [now rewrite ghost_twice|]. f_equal. apply IH.
Qed.

Lemma mark_mark (m n : nat) (bs : list Shop.button) :
  Shop.mark m (Shop.mark n bs) = Shop.mark m bs.
Proof.
  revert m n. induction bs as [|b bs IH]; intros m n; simpl;
    [now destruct m, n|].
  destruct n as [|n], m as [|m]; simpl.
  - now rewrite ghost_twice.
  - now rewrite mark_ghosts.
  - now rewrite ghosts_mark.
  - f_equal. apply IH.
Qed.

(** X12.  After a click on a filter button, that button is the only one
    with [btn-primary], every other one has [btn-ghost] instead, and no
    button is added, dropped or given another filter. *)
Theorem filter_click_marks_one (n : nat) (g : Shop.grid) :
  (n < length (Shop.filterButtons g))%nat ->
  length (Shop.filterButtons (Shop.click n g))
  = length (Shop.filterButtons g)
  /\ forall j b,
       nth_error (Shop.filterButtons (Shop.click n g)) j = Some b ->
       (Shop.btn_primary b = true <-> j = n)
       /\ Shop.btn_ghost b = negb (Shop.btn_primary b)
       /\ option_map Shop.data_filter (nth_error (Shop.filterButtons g) j)
          = Some (Shop.data_filter b).
Proof.
  intros Hn. unfold Shop.click.
  destruct (nth_error (Shop.filterButtons g) n) as [btn|] eqn:E.
  2:{ apply nth_error_None in E. lia. }
  simpl. split.
  - clear. generalize (Shop.filterButtons g) n.
    induction l as [|b l IH]; intros k; simpl; [now destruct k|].
    destruct k; simpl; [now rewrite length_map|now rewrite IH].
  - intros j b. rewrite nth_error_mark.
    destruct (nth_error (Shop.filterButtons g) j) as [x|]; simpl;
      [|discriminate].
    destruct (Nat.eqb_spec j n) as [->|Hj]; intros [= <-]; simpl.
    + repeat split; auto.
    + repeat split; auto; discriminate.
Qed.

(** X13.  After a click on a filter button a product card is displayed
    exactly when the filter is [all] or equals the category of the card,
    where a card without [data-cat] counts as [merch]; and only the last
    click matters: what an earlier click left is overwritten. *)
Theorem filter_click_shows_category (n : nat) (g : Shop.grid)
  (btn : Shop.button) :
  nth_error (Shop.filterButtons g) n = Some btn ->
  length (Shop.products (Shop.click n g)) = length (Shop.products g)
  /\ (forall j c,
        nth_error (Shop.products (Shop.click n g)) j = Some c ->
        option_map Shop.data_cat (nth_error (Shop.products g) j)
        = Some (Shop.data_cat c)
        /\ (Shop.shown c = Shop.Flex
            <-> Shop.data_filter btn = Some "all"
                \/ Shop.data_filter btn = Some (Shop.pCat c))
        /\ (Shop.shown c = Shop.Hidden \/ Shop.shown c = Shop.Flex))
  /\ (forall m, Shop.click n (Shop.click m g) = Shop.click n g).
Proof.
  intros E. split; [|split].
  - unfold Shop.click. rewrite E. simpl. apply length_map.
  - intros j c. unfold Shop.click. rewrite E. simpl.
    rewrite nth_error_map.
    destruct (nth_error (Shop.products g) j) as [x|]; simpl; [|discriminate].
    intros [= <-]. simpl. split; [reflexivity|].
    unfold Shop.matches, Shop.pCat. simpl.
    destruct (Shop.data_filter btn) as [f|]; simpl.
    + destruct (String.eqb_spec f "all") as [->|Ha]; simpl.
      * split; [split; auto|now right].
      * destruct (String.eqb_spec f
                    match Shop.data_cat x with
                    | Some (String a s) => String a s
                    | _ => "merch"
                    end) as [->|Hc]; simpl.
        -- split; [split; auto|now right].
        -- split; [|now left]. split; [discriminate|].
           intros [[= H]|[= H]]; contradiction.
    + split; [|now left]. split; [discriminate|intros [H|H]; discriminate].
  - intros m. unfold Shop.click at 2.
    destruct (nth_error (Shop.filterButtons g) m) as [bm|] eqn:Em;
      [|reflexivity].
    unfold Shop.click. simpl. rewrite nth_error_mark, E. simpl.
    assert (Hf : Shop.data_filter
                   ((if Nat.eqb n m then Shop.primary else Shop.ghost) btn)
                 = Shop.data_filter btn) by (destruct (Nat.eqb n m); reflexivity).
    rewrite Hf, mark_mark, map_map. reflexivity.
Qed.

End ShopFacts.

(** ** [server.js]: requests from the route to the database *)

Section SqliteSiteFacts.
Import Http.
Local Open Scope string_scope.
Local Open Scope Z_scope.

Ltac split_route :=
  repeat match goal with
         | |- context [String.eqb ?a ?b] => destruct (String.eqb a b)
         end.

Ltac split_ifs :=
  repeat match goal with
         | |- context [if ?b then _ else _] => destruct b
         end.

Lemma keeps_refl {A : Type} (l : list A) : SqliteSite.keeps l l.
Proof. exists nil. now rewrite app_nil_r. Qed.

Lemma keeps_snoc {A : Type} (l : list A) (x : A) :
  SqliteSite.keeps l (l ++ [x]).
Proof. now exists [x]. Qed.

Lemma keeps_all_refl (s : SqliteSite.site) : SqliteSite.keeps_all s s.
Proof. repeat split; apply keeps_refl. Qed.

(** X17.  [POST /contact] on the SQLite server, for a form that sends no
    field twice: without name, email or message the answer is 400 and no
    row is written; with the three, and no error of the driver, exactly
    one contact is added, with the phone and the subject as NULL when they
    are missing or empty, and the answer is a redirect to the home view
    with the contact flag. *)
Theorem sqlite_contact_validates (h : SqliteSite.host) (b : form)
  (s : SqliteSite.site) (Hbody : NoDup (map fst b)) :
  (Sqlite.missing (field "name" b) = true
   \/ Sqlite.missing (field "email" b) = true
   \/ Sqlite.missing (field "message" b) = true ->
   SqliteSite.contact_submit h b s
   = (Send 400 "Veuillez remplir les champs obligatoires.", s))
  /\ (forall n e m,
        field "name" b = Some n -> n <> EmptyString ->
        field "email" b = Some e -> e <> EmptyString ->
        field "message" b = Some m -> m <> EmptyString ->
        SqliteSite.insert_err h = false ->
        fst (SqliteSite.contact_submit h b s) = Redirect "/?contact=1"
        /\ SqliteSite.rows
             (SqliteSite.contacts (snd (SqliteSite.contact_submit h b s)))
           = (SqliteSite.rows (SqliteSite.contacts s)
              ++ [{| SqliteSite.co_id :=
                       SqliteSite.seq (SqliteSite.contacts s) + 1;
                     SqliteSite.co_name := n;
                     SqliteSite.co_email := e;
                     SqliteSite.co_phone := Sqlite.or_null (field "phone" b);
                     SqliteSite.co_subject :=
                       Sqlite.or_null (field "subject" b);
                     SqliteSite.co_message := m |}])%list).
Proof.
  split.
  - intros H. unfold SqliteSite.contact_submit.
    destruct H as [H|[H|H]]; rewrite H; simpl;
      rewrite ?orb_true_r; reflexivity.
  - intros n e m Hn Hn' He He' Hm Hm' Hi. unfold SqliteSite.contact_submit.
    rewrite Hn, He, Hm, Hi.
    destruct n; [congruence|]. destruct e; [congruence|].
    destruct m; [congruence|]. simpl. split; reflexivity.
Qed.

Lemma sqlite_admin_passes (u : Sqlite.session_user) :
  Sqlite.su_role u = "admin" ->
  Sqlite.dispatch GET "/admin" (Some u) = Entered Sqlite.AdminDashboard
  /\ Sqlite.dispatch POST "/admin/events/add" (Some u)
     = Entered Sqlite.AdminEventsAdd
  /\ Sqlite.dispatch POST "/admin/volunteers/add" (Some u)
     = Entered Sqlite.AdminVolunteersAdd.
Proof.
  intros Hu. unfold Sqlite.dispatch. simpl. rewrite Hu. simpl.
  repeat split.
Qed.

(** X18.  The two admin forms of the SQLite server, for a session whose
    role is admin and a form that sends no field twice: a form without
    one of its required fields (title, date,
    start time and location for an event; name and position for a
    volunteer) is answered with 400 and nothing is written; an event form
    with its required fields, and no error of the driver, adds exactly one
    event, with the description and the capacity as NULL when they are
    missing or empty, and is answered with a redirect to the dashboard. *)
Theorem sqlite_admin_forms_validate (h : SqliteSite.host) (b : form)
  (s : SqliteSite.site) (u : Sqlite.session_user)
  (Hbody : NoDup (map fst b)) :
  Sqlite.su_role u = "admin" ->
  (Sqlite.missing (field "title" b) = true
   \/ Sqlite.missing (field "date" b) = true
   \/ Sqlite.missing (field "start_time" b) = true
   \/ Sqlite.missing (field "location" b) = true ->
   SqliteSite.handle h
     {| SqliteSite.meth := POST; SqliteSite.path := "/admin/events/add";
        SqliteSite.body := b |} (s, Some u)
   = (Some (Send 400 "Champs obligatoires manquants."), (s, Some u)))
  /\ (Sqlite.missing (field "name" b) = true
      \/ Sqlite.missing (field "position" b) = true ->
      SqliteSite.handle h
        {| SqliteSite.meth := POST;
           SqliteSite.path := "/admin/volunteers/add";
           SqliteSite.body := b |} (s, Some u)
      = (Some (Send 400 "Nom et poste obligatoires."), (s, Some u)))
  /\ (Sqlite.missing (field "title" b) = false ->
      Sqlite.missing (field "date" b) = false ->
      Sqlite.missing (field "start_time" b) = false ->
      Sqlite.missing (field "location" b) = false ->
      SqliteSite.insert_err h = false ->
      exists e,
        SqliteSite.handle h
          {| SqliteSite.meth := POST; SqliteSite.path := "/admin/events/add";
             SqliteSite.body := b |} (s, Some u)
        = (Some (Redirect "/admin"),
           (SqliteSite.with_events
              {| SqliteSite.rows :=
                   (SqliteSite.rows (SqliteSite.events s) ++ [e])%list;
                 SqliteSite.seq := SqliteSite.seq (SqliteSite.events s) + 1 |}
              s, Some u))
        /\ field "title" b = Some (SqliteSite.ev_title e)
        /\ field "date" b = Some (SqliteSite.ev_date e)
        /\ SqliteSite.ev_description e
           = Sqlite.or_null (field "description" b)
        /\ SqliteSite.ev_capacity e = Sqlite.or_null (field "capacity" b)).
Proof.
  intros Hu.
  destruct (sqlite_admin_passes u Hu) as (_ & He & Hv).
  split; [|split].
  - intros H. unfold SqliteSite.handle.
    cbn [SqliteSite.meth SqliteSite.path SqliteSite.body]. rewrite He.
    unfold SqliteSite.admin_events_add.
    destruct H as [H|[H|[H|H]]]; rewrite H; simpl;
      rewrite ?orb_true_r; reflexivity.
  - intros H. unfold SqliteSite.handle.
    cbn [SqliteSite.meth SqliteSite.path SqliteSite.body]. rewrite Hv.
    unfold SqliteSite.admin_volunteers_add.
    destruct H as [H|H]; rewrite H; simpl;
      rewrite ?orb_true_r; reflexivity.
  - intros Ht Hd Hs Hl Hi.
    unfold SqliteSite.handle.
    cbn [SqliteSite.meth SqliteSite.path SqliteSite.body]. rewrite He.
    unfold SqliteSite.admin_events_add. rewrite Ht, Hd, Hs, Hl, Hi. simpl.
    eexists. split; [reflexivity|]. simpl.
    destruct (field "title" b) as [[|a t]|]; try discriminate.
    destruct (field "date" b) as [[|a' t']|]; try discriminate.
    repeat split.
Qed.

Ltac sqlite_cases h r sess :=
  unfold SqliteSite.handle, Sqlite.dispatch, Sqlite.route;
  destruct (SqliteSite.meth r); split_route; cbn [through];
  try destruct (Sqlite.requireAdmin sess);
  unfold SqliteSite.contact_submit, SqliteSite.admin_events_add,
    SqliteSite.admin_volunteers_add, Sqlite.events_register;
  try destruct (Sqlite.login (SqliteSite.same h) (SqliteSite.query_err h)
                  _ (SqliteSite.body r) sess);
  split_ifs.

Ltac keeps_solve :=
  unfold SqliteSite.keeps_all; simpl;
  repeat split; try apply keeps_refl; try apply keeps_snoc.

(** X19.  Whatever the request, the session and the host, the SQLite
    server only adds rows: every table keeps its rows in their order, and
    at most one row is added in all.  A GET request, a request that no
    route matches and a request answered with a status of 400 or more
    leave the database as it was.  Roles, users, categories and products
    are written by no handler. *)
Theorem sqlite_handle_only_adds (h : SqliteSite.host)
  (r : SqliteSite.request) (s : SqliteSite.site) (sess : Sqlite.session) :
  SqliteSite.keeps_all s (fst (snd (SqliteSite.handle h r (s, sess))))
  /\ (SqliteSite.size (fst (snd (SqliteSite.handle h r (s, sess))))
      <= SqliteSite.size s + 1)%nat
  /\ (SqliteSite.meth r = GET ->
      fst (snd (SqliteSite.handle h r (s, sess))) = s)
  /\ (fst (SqliteSite.handle h r (s, sess)) = None ->
      snd (SqliteSite.handle h r (s, sess)) = (s, sess))
  /\ (forall resp,
        fst (SqliteSite.handle h r (s, sess)) = Some resp ->
        400 <= status_of resp ->
        fst (snd (SqliteSite.handle h r (s, sess))) = s)
  /\ Sqlite.roles (SqliteSite.core
                     (fst (snd (SqliteSite.handle h r (s, sess)))))
     = Sqlite.roles (SqliteSite.core s)
  /\ Sqlite.users (SqliteSite.core
                     (fst (snd (SqliteSite.handle h r (s, sess)))))
     = Sqlite.users (SqliteSite.core s)
  /\ SqliteSite.categories (fst (snd (SqliteSite.handle h r (s, sess))))
     = SqliteSite.categories s
  /\ SqliteSite.products (fst (snd (SqliteSite.handle h r (s, sess))))
     = SqliteSite.products s.
Proof.
  destruct s as [[rs rq us uq gs gq] ev vo co ca pr].
  split; [|split; [|split; [|split; [|split; [|split; [|split; [|split]]]]]]].
  - sqlite_cases h r sess; keeps_solve.
  - sqlite_cases h r sess; unfold SqliteSite.size; simpl;
      rewrite ?length_app; simpl; lia.
  - intros Hm. unfold SqliteSite.handle, Sqlite.dispatch, Sqlite.route.
    rewrite Hm. split_route; cbn [through];
      try destruct (Sqlite.requireAdmin sess); reflexivity.
  - sqlite_cases h r sess; simpl; intros H; try discriminate; reflexivity.
  - intros resp. sqlite_cases h r sess; simpl; intros [= <-]; simpl;
      intros Hs; try reflexivity; lia.
  - sqlite_cases h r sess; reflexivity.
  - sqlite_cases h r sess; reflexivity.
  - sqlite_cases h r sess; reflexivity.
  - sqlite_cases h r sess; reflexivity.
Qed.

(** X20.  Without a session whose role is admin, no request to the SQLite
    server, whatever its method, path and body, changes the events or the
    volunteers, and a request to one of the three admin routes changes
    nothing at all and is answered with a redirect to the login page. *)
Theorem sqlite_handle_needs_admin (h : SqliteSite.host)
  (r : SqliteSite.request) (s : SqliteSite.site) (sess : Sqlite.session) :
  (sess = None \/ exists u, sess = Some u /\ Sqlite.su_role u <> "admin") ->
  SqliteSite.events (fst (snd (SqliteSite.handle h r (s, sess))))
  = SqliteSite.events s
  /\ SqliteSite.volunteers (fst (snd (SqliteSite.handle h r (s, sess))))
     = SqliteSite.volunteers s
  /\ forall b,
       SqliteSite.handle h
         {| SqliteSite.meth := GET; SqliteSite.path := "/admin";
            SqliteSite.body := b |} (s, sess)
       = (Some (Redirect "/login"), (s, sess))
       /\ SqliteSite.handle h
            {| SqliteSite.meth := POST;
               SqliteSite.path := "/admin/events/add";
               SqliteSite.body := b |} (s, sess)
          = (Some (Redirect "/login"), (s, sess))
       /\ SqliteSite.handle h
            {| SqliteSite.meth := POST;
               SqliteSite.path := "/admin/volunteers/add";
               SqliteSite.body := b |} (s, sess)
          = (Some (Redirect "/login"), (s, sess)).
Proof.
  intros Hs. pose proof (requireAdmin_stops sess Hs) as Hg.
  destruct s as [[rs rq us uq gs gq] ev vo co ca pr].
  split; [|split].
  - unfold SqliteSite.handle, Sqlite.dispatch, Sqlite.route.
    destruct (SqliteSite.meth r); split_route; cbn [through];
      rewrite ?Hg;
      unfold SqliteSite.contact_submit, Sqlite.events_register;
      try destruct (Sqlite.login _ _ _ _ _); split_ifs; reflexivity.
  - unfold SqliteSite.handle, Sqlite.dispatch, Sqlite.route.
    destruct (SqliteSite.meth r); split_route; cbn [through];
      rewrite ?Hg;
      unfold SqliteSite.contact_submit, Sqlite.events_register;
      try destruct (Sqlite.login _ _ _ _ _); split_ifs; reflexivity.
  - intros b. unfold SqliteSite.handle, Sqlite.dispatch. simpl.
    rewrite Hg. repeat split.
Qed.

End SqliteSiteFacts.

(** ** Accounts: login, logout and what the seeding leaves alone *)

Section AccountFacts.
Import Http.
Local Open Scope string_scope.
Local Open Scope Z_scope.

(** X21.  [POST /login] on the SQLite server either re-renders the login
    form with a message and leaves the session as it was, or redirects to
    the dashboard with a new session; the latter only for a user of the
    table whose stored hash bcrypt accepts for the password sent, and the
    role kept in the session is the name of that user's role. *)
Theorem sqlite_login_sets_session_only_on_match
  (same : string -> string -> bool) (query_err : bool) (d : Sqlite.db)
  (b : form) (s : Sqlite.session) :
  (snd (Sqlite.login same query_err d b s) = s
   /\ exists msg,
        fst (Sqlite.login same query_err d b s)
        = Render "login" (Some msg))
  \/ (fst (Sqlite.login same query_err d b s) = Redirect "/admin"
      /\ query_err = false
      /\ exists u r pw,
           In u (Sqlite.users d) /\ In r (Sqlite.roles d)
           /\ field "username" b = Some (Sqlite.username u)
           /\ field "password" b = Some pw
           /\ same pw (Sqlite.password u) = true
           /\ Sqlite.role_id r = Sqlite.user_role_id u
           /\ snd (Sqlite.login same query_err d b s)
              = Some {| Sqlite.su_id := Sqlite.user_id u;
                        Sqlite.su_username := Sqlite.username u;
                        Sqlite.su_role := Sqlite.role_name r |}).
Proof.
  unfold Sqlite.login.
  destruct query_err; [left; simpl; eauto|].
  destruct (field "username" b) as [n|]; [|left; simpl; eauto].
  destruct (find _ (Sqlite.users d)) as [u|] eqn:Eu; [|left; simpl; eauto].
  destruct (find _ (Sqlite.roles d)) as [r|] eqn:Er; [|left; simpl; eauto].
  destruct (field "password" b) as [pw|]; [|left; simpl; eauto].
  destruct (same pw (Sqlite.password u)) eqn:Es; [|left; simpl; eauto].
  right. simpl. split; [reflexivity|]. split; [reflexivity|].
  apply find_some in Eu as [Hu Hn]. apply find_some in Er as [Hr Hi].
  apply String.eqb_eq in Hn. apply Z.eqb_eq in Hi.
  exists u, r, pw. rewrite Hn. repeat split; auto.
Qed.

(** X22.  The SQLite site after its first start on a new database: the
    dashboard is closed to a visitor without session; the login with
    [admin] and the default password, when bcrypt accepts it for the
    stored hash, opens a session with the role admin, for which the
    dashboard is served; a password that bcrypt rejects opens none; and
    after the logout the dashboard is closed again. *)
Theorem sqlite_default_admin_can_log_in (h : SqliteSite.host)
  (hsh : string) (after : bool) :
  SqliteSite.same h "admin" hsh = true ->
  SqliteSite.query_err h = false ->
  SqliteSite.handle h (Walk.sqlite_get "/admin")
    (Walk.sqlite_started hsh after, None)
  = (Some (Redirect "/login"), (Walk.sqlite_started hsh after, None))
  /\ SqliteSite.handle h
       (Walk.sqlite_post "/login" (Walk.credentials "admin" "admin"))
       (Walk.sqlite_started hsh after, None)
     = (Some (Redirect "/admin"),
        (Walk.sqlite_started hsh after, Some Walk.sqlite_admin))
  /\ SqliteSite.handle h (Walk.sqlite_get "/admin")
       (Walk.sqlite_started hsh after, Some Walk.sqlite_admin)
     = (Some (SqliteSite.admin_dashboard h),
        (Walk.sqlite_started hsh after, Some Walk.sqlite_admin))
  /\ (forall pw,
        SqliteSite.same h pw hsh = false ->
        SqliteSite.handle h
          (Walk.sqlite_post "/login" (Walk.credentials "admin" pw))
          (Walk.sqlite_started hsh after, None)
        = (Some (Render "login" (Some "Mot de passe incorrect.")),
           (Walk.sqlite_started hsh after, None)))
  /\ SqliteSite.handle h (Walk.sqlite_get "/logout")
       (Walk.sqlite_started hsh after, Some Walk.sqlite_admin)
     = (Some (Redirect "/"), (Walk.sqlite_started hsh after, None)).
Proof.
  intros Hs Hq.
  split; [|split; [|split; [|split]]].
  - destruct after; reflexivity.
  - unfold SqliteSite.handle, Walk.sqlite_post, Walk.credentials.
    cbn [SqliteSite.meth SqliteSite.path SqliteSite.body].
    destruct after; unfold Sqlite.login; rewrite Hq; simpl;
      rewrite Hs; reflexivity.
  - destruct after; reflexivity.
  - intros pw Hpw.
    unfold SqliteSite.handle, Walk.sqlite_post, Walk.credentials.
    cbn [SqliteSite.meth SqliteSite.path SqliteSite.body].
    destruct after; unfold Sqlite.login; rewrite Hq; simpl;
      rewrite Hpw; reflexivity.
  - destruct after; reflexivity.
Qed.

(** X23.  The seeding of the SQLite server leaves every role and every
    account that it finds as it is: rows are only added, a users table
    that is not empty is not touched, so no password is ever reset, and
    neither is a roles table that is not empty or the registrations. *)
Theorem sqlite_bootstrap_keeps_accounts (h : Sqlite.seeding)
  (d : Sqlite.db) :
  SqliteSite.keeps (Sqlite.roles d) (Sqlite.roles (fst (Sqlite.bootstrap h d)))
  /\ SqliteSite.keeps (Sqlite.users d)
       (Sqlite.users (fst (Sqlite.bootstrap h d)))
  /\ (Sqlite.users d <> [] ->
      Sqlite.users (fst (Sqlite.bootstrap h d)) = Sqlite.users d)
  /\ (Sqlite.roles d <> [] ->
      Sqlite.roles (fst (Sqlite.bootstrap h d)) = Sqlite.roles d)
  /\ Sqlite.registrations (fst (Sqlite.bootstrap h d))
     = Sqlite.registrations d.
Proof.
  destruct d as [rs rq us uq gs gq], h as [[hsh|] after];
    unfold Sqlite.bootstrap, Sqlite.seed_admin, Sqlite.seed_roles; simpl;
    destruct rs as [|r rs], us as [|u us]; simpl;
    repeat split; try congruence;
    try apply keeps_refl;
    try (now eexists; reflexivity).
Qed.

End AccountFacts.

(** ** The seed of the shop *)

Section ShopSeedFacts.
Local Open Scope string_scope.
Local Open Scope Z_scope.

Lemma seed_shop_settles (after : bool) (s : SqliteSite.site) :
  (length (SqliteSite.rows
             (SqliteSite.categories (SqliteSite.seed_shop after s))) =? 0)%nat
  = false
  /\ (length (SqliteSite.rows
                (SqliteSite.products (SqliteSite.seed_shop after s))) =? 0)%nat
     = false.
Proof.
  destruct s as [d ev vo co [cs cq] [ps pq]].
  unfold SqliteSite.seed_shop, SqliteSite.seed_products,
    SqliteSite.seed_categories. simpl.
  destruct cs as [|c cs], ps as [|p ps]; simpl; split; reflexivity.
Qed.

(** X24.  The seed of the shop: a second run changes nothing, from any
    database and in whatever order the lookups are answered; on a new
    database it leaves the categories merch and broc and four products,
    each of which refers to one of the two categories; and it writes to no
    other table. *)
Theorem shop_seed_is_idempotent_and_consistent (after : bool) :
  (forall again s,
     SqliteSite.seed_shop again (SqliteSite.seed_shop after s)
     = SqliteSite.seed_shop after s)
  /\ map SqliteSite.cat_name
       (SqliteSite.rows
          (SqliteSite.categories
             (SqliteSite.seed_shop after SqliteSite.fresh)))
     = ["merch"; "broc"]
  /\ length (SqliteSite.rows
               (SqliteSite.products
                  (SqliteSite.seed_shop after SqliteSite.fresh))) = 4%nat
  /\ (forall p,
        In p (SqliteSite.rows
                (SqliteSite.products
                   (SqliteSite.seed_shop after SqliteSite.fresh))) ->
        exists c,
          In c (SqliteSite.rows
                  (SqliteSite.categories
                     (SqliteSite.seed_shop after SqliteSite.fresh)))
          /\ SqliteSite.cat_id c = SqliteSite.pr_category_id p)
  /\ (forall s,
        SqliteSite.core (SqliteSite.seed_shop after s) = SqliteSite.core s
        /\ SqliteSite.events (SqliteSite.seed_shop after s)
           = SqliteSite.events s
        /\ SqliteSite.volunteers (SqliteSite.seed_shop after s)
           = SqliteSite.volunteers s
        /\ SqliteSite.contacts (SqliteSite.seed_shop after s)
           = SqliteSite.contacts s).
Proof.
  split; [|split; [|split; [|split]]].
  - intros again s.
    destruct (seed_shop_settles after s) as [Hc Hp].
    unfold SqliteSite.seed_shop at 1.
    unfold SqliteSite.seed_categories at 1. rewrite Hc.
    unfold SqliteSite.seed_products at 1. rewrite Hp. reflexivity.
  - destruct after; reflexivity.
  - destruct after; reflexivity.
  - intros p Hp.
    destruct after; simpl in Hp;
      destruct Hp as [<-|[<-|[<-|[<-|[]]]]]; simpl;
      (eexists; split; [left; reflexivity|reflexivity])
      || (eexists; split; [right; left; reflexivity|reflexivity]).
  - intros s. destruct s as [d ev vo co [cs cq] [ps pq]].
    unfold SqliteSite.seed_shop, SqliteSite.seed_products,
      SqliteSite.seed_categories. simpl.
    destruct cs, ps; simpl; repeat split.
Qed.

End ShopSeedFacts.

(** ** The PostgreSQL server: requests from the route to the database *)

Section PgSiteFacts.
Import Http.
Local Open Scope string_scope.
Local Open Scope Z_scope.

Ltac split_route :=
  repeat match goal with
         | |- context [String.eqb ?a ?b] => destruct (String.eqb a b)
         end.

Ltac split_ifs :=
  repeat match goal with
         | |- context [if ?b then _ else _] => destruct b
         end.

Lemma isAuthenticated_cases (sess : Pg.session) :
  Pg.isAuthenticated sess = Next
  \/ Pg.isAuthenticated sess = Answer (Redirect "/login").
Proof.
  unfold Pg.isAuthenticated.
  destruct (Pg.userId sess) as [n|]; [destruct (n =? 0)|]; auto.
Qed.

Ltac pg_cases h r sess :=
  unfold PgSite.handle, Pg.route;
  destruct (PgSite.meth r); split_route;
  try destruct (Pg.after_prefix "/register/" (PgSite.path r));
  try match goal with
      | |- context [Pg.no_slash ?i] => destruct (Pg.no_slash i)
      end;
  cbn [through];
  try (destruct (isAuthenticated_cases sess) as [Hg|Hg]; rewrite Hg);
  unfold PgSite.contact_submit, PgSite.admin_add_event,
    PgSite.admin_add_volunteer, PgSite.home, PgSite.admin_dashboard,
    Pg.register, Pg.login;
  split_ifs;
  repeat match goal with
         | |- context [match field ?k ?b with _ => _ end] =>
             destruct (field k b)
         | |- context [match find ?f ?l with _ => _ end] =>
             destruct (find f l)
         end;
  split_ifs.

(** X25.  The PostgreSQL server never answers 400: whatever the request,
    an answer of one of its handlers or of its guard has status 200, 302
    or 500. *)
Theorem pg_handle_never_answers_400 (h : PgSite.host) (r : PgSite.request)
  (s : PgSite.site) (sess : Pg.session) (resp : response) :
  fst (PgSite.handle h r (s, sess)) = Some resp ->
  status_of resp = 200 \/ status_of resp = 302 \/ status_of resp = 500.
Proof.
  pg_cases h r sess; simpl; intros [= <-]; simpl; auto.
Qed.

(** X26.  On the PostgreSQL server a GET request and a request answered
    with 500 leave the database as it was; no request writes roles or
    users; and without a user id in the session, no request changes the
    events or the volunteers, and the three admin routes answer with a
    redirect to the login page and write nothing. *)
Theorem pg_handle_writes (h : PgSite.host) (r : PgSite.request)
  (s : PgSite.site) (sess : Pg.session) :
  (PgSite.meth r = GET -> fst (snd (PgSite.handle h r (s, sess))) = s)
  /\ (forall resp,
        fst (PgSite.handle h r (s, sess)) = Some resp ->
        status_of resp = 500 ->
        fst (snd (PgSite.handle h r (s, sess))) = s)
  /\ Pg.roles (Pg.rows (PgSite.core
                          (fst (snd (PgSite.handle h r (s, sess))))))
     = Pg.roles (Pg.rows (PgSite.core s))
  /\ Pg.users (Pg.rows (PgSite.core
                          (fst (snd (PgSite.handle h r (s, sess))))))
     = Pg.users (Pg.rows (PgSite.core s))
  /\ (Pg.userId sess = None ->
      PgSite.events (fst (snd (PgSite.handle h r (s, sess))))
      = PgSite.events s
      /\ PgSite.volunteers (fst (snd (PgSite.handle h r (s, sess))))
         = PgSite.volunteers s
      /\ forall b,
           PgSite.handle h (Walk.pg_get "/admin") (s, sess)
           = (Some (Redirect "/login"), (s, sess))
           /\ PgSite.handle h (Walk.pg_post "/admin/add-event" b) (s, sess)
              = (Some (Redirect "/login"), (s, sess))
           /\ PgSite.handle h (Walk.pg_post "/admin/add-volunteer" b)
                (s, sess)
              = (Some (Redirect "/login"), (s, sess))).
Proof.
  destruct s as [[[rs us gs] rq uq] ev vo co].
  split; [|split; [|split; [|split]]].
  - intros Hm. unfold PgSite.handle, Pg.route. rewrite Hm.
    split_route; cbn [through];
      try destruct (Pg.isAuthenticated sess); reflexivity.
  - intros resp. pg_cases h r sess; simpl; intros [= <-]; simpl;
      intros Hs; try reflexivity; discriminate.
  - pg_cases h r sess; reflexivity.
  - pg_cases h r sess; reflexivity.
  - intros Hn.
    assert (Hg : Pg.isAuthenticated sess = Answer (Redirect "/login")).
    { unfold Pg.isAuthenticated. now rewrite Hn. }
    split; [|split].
    + unfold PgSite.handle, Pg.route.
      destruct (PgSite.meth r); split_route;
        try destruct (Pg.after_prefix "/register/" (PgSite.path r));
        try match goal with
            | |- context [Pg.no_slash ?i] => destruct (Pg.no_slash i)
            end;
        cbn [through]; rewrite ?Hg;
        unfold PgSite.contact_submit, Pg.register;
        try destruct (Pg.login _ _ _ _ _); split_ifs; reflexivity.
    + unfold PgSite.handle, Pg.route.
      destruct (PgSite.meth r); split_route;
        try destruct (Pg.after_prefix "/register/" (PgSite.path r));
        try match goal with
            | |- context [Pg.no_slash ?i] => destruct (Pg.no_slash i)
            end;
        cbn [through]; rewrite ?Hg;
        unfold PgSite.contact_submit, Pg.register;
        try destruct (Pg.login _ _ _ _ _); split_ifs; reflexivity.
    + intros b. unfold PgSite.handle. simpl. rewrite Hg. repeat split.
Qed.

End PgSiteFacts.

Section PgAccountFacts.
Import Http.
Local Open Scope string_scope.
Local Open Scope Z_scope.

Lemma pg_try_shape (h : Pg.run) (d d' : Pg.db) (u : unit) :
  Pg.ensureAdmin_try h d = (d', Some u) ->
  exists newroles newusers,
    Pg.roles (Pg.rows d') = (Pg.roles (Pg.rows d) ++ newroles)%list
    /\ Pg.users (Pg.rows d') = (Pg.users (Pg.rows d) ++ newusers)%list
    /\ Pg.registrations (Pg.rows d') = Pg.registrations (Pg.rows d)
    /\ (newusers = []
        \/ (filter (fun x => String.eqb (Pg.username x) "admin")
              (Pg.users (Pg.rows d)) = []
            /\ exists r,
                 find (fun x => String.eqb (Pg.role_name x) "admin")
                   (Pg.roles (Pg.rows d')) = Some r
                 /\ newusers
                    = [{| Pg.user_id := Pg.users_seq d + 1;
                          Pg.username := "admin";
                          Pg.password := Pg.hashed h;
                          Pg.user_role_id := Pg.role_id r |}])).
Proof.
  unfold Pg.ensureAdmin_try, Pg.bind, Pg.await, Pg.when, Pg.ret, Pg.throw.
  destruct (Pg.rejects h Pg.Begin); [discriminate|].
  destruct (Pg.rejects h Pg.CreateTables); [discriminate|].
  destruct (Pg.rejects h Pg.CountRoles); [discriminate|].
  destruct d as [[rs us regs] rseq useq]. simpl.
  destruct (nil_or_longer rs) as [->|Hlen]; [simpl|rewrite Hlen; simpl].
  - destruct (Pg.rejects h Pg.InsertRoles); [discriminate|]. simpl.
    destruct (Pg.rejects h Pg.SelectAdmin); [discriminate|].
    destruct (filter _ us) as [|a t] eqn:F; simpl.
    + destruct (Pg.rejects h Pg.Hash); [discriminate|].
      destruct (Pg.rejects h Pg.SelectRole); [discriminate|]. simpl.
      destruct (Pg.rejects h Pg.InsertUser); [discriminate|]. simpl.
      destruct (Pg.rejects h Pg.Commit); [discriminate|].
      intros [= <- _]. simpl.
      eexists _, _. repeat split; try reflexivity.
      right. split; [reflexivity|]. eexists. split; reflexivity.
    + destruct (Pg.rejects h Pg.Commit); [discriminate|].
      intros [= <- _]. simpl.
      exists [ {| Pg.role_id := rseq + 1; Pg.role_name := "admin" |};
               {| Pg.role_id := rseq + 1 + 1; Pg.role_name := "staff" |};
               {| Pg.role_id := rseq + 1 + 1 + 1;
                  Pg.role_name := "volunteer" |} ], nil.
      rewrite app_nil_r. repeat split; auto.
  - destruct (Pg.rejects h Pg.SelectAdmin); [discriminate|].
    destruct (filter _ us) as [|a t] eqn:F; simpl.
    + destruct (Pg.rejects h Pg.Hash); [discriminate|].
      destruct (Pg.rejects h Pg.SelectRole); [discriminate|]. simpl.
      destruct (find _ rs) as [ra|] eqn:R; [|discriminate].
      destruct (Pg.rejects h Pg.InsertUser); [discriminate|]. simpl.
      destruct (Pg.rejects h Pg.Commit); [discriminate|].
      intros [= <- _]. simpl.
      exists nil. eexists. rewrite app_nil_r.
      repeat split; try reflexivity.
      right. split; [reflexivity|]. exists ra. split; [exact R|reflexivity].
    + destruct (Pg.rejects h Pg.Commit); [discriminate|].
      intros [= <- _]. simpl.
      exists nil, nil. rewrite !app_nil_r. repeat split; auto.
Qed.

(** X27.  [ensureAdmin] leaves every role, every account and every
    registration that it finds as it is: rows are only added, and when a
    user [admin] exists the users are not touched, so its password is
    never reset.  A user that a run adds is [admin] with the hash of that
    run, and its role id is the id of a role named admin in the table. *)
Theorem pg_ensureAdmin_keeps_accounts (h : Pg.run) (d : Pg.db) :
  SqliteSite.keeps (Pg.roles (Pg.rows d))
    (Pg.roles (Pg.rows (fst (Pg.ensureAdmin h d))))
  /\ SqliteSite.keeps (Pg.users (Pg.rows d))
       (Pg.users (Pg.rows (fst (Pg.ensureAdmin h d))))
  /\ Pg.registrations (Pg.rows (fst (Pg.ensureAdmin h d)))
     = Pg.registrations (Pg.rows d)
  /\ ((exists a, In a (Pg.users (Pg.rows d)) /\ Pg.username a = "admin") ->
      Pg.users (Pg.rows (fst (Pg.ensureAdmin h d))) = Pg.users (Pg.rows d))
  /\ (forall a,
        In a (Pg.users (Pg.rows (fst (Pg.ensureAdmin h d)))) ->
        ~ In a (Pg.users (Pg.rows d)) ->
        Pg.username a = "admin" /\ Pg.password a = Pg.hashed h
        /\ exists r,
             In r (Pg.roles (Pg.rows (fst (Pg.ensureAdmin h d))))
             /\ Pg.role_name r = "admin"
             /\ Pg.role_id r = Pg.user_role_id a).
Proof.
  unfold Pg.ensureAdmin.
  destruct (Pg.rejects h Pg.Connect).
  { simpl. split; [apply keeps_refl|]. split; [apply keeps_refl|].
    split; [reflexivity|]. split; [auto|].
    intros a Ha Hn. contradiction. }
  destruct (Pg.ensureAdmin_try h d) as [d' [u|]] eqn:E; simpl.
  2:{ split; [apply keeps_refl|]. split; [apply keeps_refl|].
      split; [reflexivity|]. split; [auto|].
      intros a Ha Hn. contradiction. }
  destruct (pg_try_shape h d d' u E) as (nr & nu & Hr & Hu & Hg & Hn).
  rewrite Hr, Hu, Hg.
  split; [now exists nr|]. split; [now exists nu|]. split; [reflexivity|].
  split.
  - intros (a & Ha & Hna).
    destruct Hn as [->|(F & _)]; [now rewrite app_nil_r|].
    exfalso.
    assert (Hin : In a (filter (fun x => String.eqb (Pg.username x) "admin")
                          (Pg.users (Pg.rows d)))).
    { apply filter_In. split; [assumption|]. now apply String.eqb_eq. }
    rewrite F in Hin. destruct Hin.
  - intros a Ha Hna. apply in_app_or in Ha as [Ha|Ha]; [contradiction|].
    destruct Hn as [->|(_ & r & Hf & ->)]; [destruct Ha|].
    destruct Ha as [<-|[]]. simpl. split; [reflexivity|].
    split; [reflexivity|].
    rewrite Hr in Hf. apply find_some in Hf as [Hin Hname].
    exists r. split; [assumption|]. split; [|reflexivity].
    now apply String.eqb_eq.
Qed.

(** X28.  The PostgreSQL site after [ensureAdmin] ran on a new database:
    the dashboard is closed to a visitor without session; the login with
    [admin] and the default password, when bcrypt accepts it for the
    stored hash, stores the user id 1 in the session, for which the
    dashboard is served; a password that bcrypt rejects leaves the session
    as it was; and after the logout the dashboard is closed again. *)
Theorem pg_default_admin_can_log_in (h : PgSite.host) (hsh : string) :
  PgSite.same h "admin" hsh = true ->
  PgSite.query_err h = false ->
  PgSite.handle h (Walk.pg_get "/admin")
    (Walk.pg_started hsh, {| Pg.userId := None |})
  = (Some (Redirect "/login"),
     (Walk.pg_started hsh, {| Pg.userId := None |}))
  /\ PgSite.handle h
       (Walk.pg_post "/login" (Walk.credentials "admin" "admin"))
       (Walk.pg_started hsh, {| Pg.userId := None |})
     = (Some (Redirect "/admin"),
        (Walk.pg_started hsh, {| Pg.userId := Some 1 |}))
  /\ PgSite.handle h (Walk.pg_get "/admin")
       (Walk.pg_started hsh, {| Pg.userId := Some 1 |})
     = (Some (PgSite.admin_dashboard h),
        (Walk.pg_started hsh, {| Pg.userId := Some 1 |}))
  /\ (forall pw,
        PgSite.same h pw hsh = false ->
        PgSite.handle h
          (Walk.pg_post "/login" (Walk.credentials "admin" pw))
          (Walk.pg_started hsh, {| Pg.userId := None |})
        = (Some (Render "login" (Some "Mot de passe incorrect")),
           (Walk.pg_started hsh, {| Pg.userId := None |})))
  /\ PgSite.handle h (Walk.pg_get "/logout")
       (Walk.pg_started hsh, {| Pg.userId := Some 1 |})
     = (Some (Redirect "/"),
        (Walk.pg_started hsh, {| Pg.userId := None |})).
Proof.
  intros Hs Hq.
  split; [|split; [|split; [|split]]]; try reflexivity.
  - unfold PgSite.handle, Walk.pg_post, Walk.credentials.
    cbn [PgSite.meth PgSite.path PgSite.body]. simpl.
    unfold Pg.login. rewrite Hq. simpl. rewrite Hs. reflexivity.
  - intros pw Hpw.
    unfold PgSite.handle, Walk.pg_post, Walk.credentials.
    cbn [PgSite.meth PgSite.path PgSite.body]. simpl.
    unfold Pg.login. rewrite Hq. simpl. rewrite Hpw. reflexivity.
Qed.

End PgAccountFacts.

(** ** More worked instances *)

Section CartInstances.
Import Js Cart.
Local Open Scope string_scope.

Lemma cart_keys_unique_witness :
  NoDup (keys (run Sample.stringify (empty None)
                 [OAdd Sample.tote; OAdd (Sample.tshirt (Some "L"));
                  OAdd Sample.tote]))
  /\ with_qty (new_line Sample.tote) 2 = with_qty (new_line Sample.tote) 2.
Proof.
  destruct (cart_keys_unique Sample.stringify
              [OAdd Sample.tote; OAdd (Sample.tshirt (Some "L"));
               OAdd Sample.tote] None) as [H1 H2].
  split; [exact H1|].
  apply (H2 (with_qty (new_line Sample.tote) 2)
            (with_qty (new_line Sample.tote) 2)).
  - left. reflexivity.
  - left. reflexivity.
  - reflexivity.
Defined.



Lemma cart_remove_clears_key_witness :
  ~ In (new_line Sample.tote)
      (items (remove Sample.stringify "3"
                (add Sample.stringify Sample.tote (empty None)))).
Proof.
  intros H.
  apply (proj1 (proj1 (proj2 (cart_remove_clears_key Sample.stringify "3"
                                (add Sample.stringify Sample.tote
                                   (empty None))))
                  (new_line Sample.tote))) in H.
  destruct H as [_ H]. apply H. reflexivity.
Defined.

Lemma cart_add_remove_round_trip_witness :
  items (remove Sample.stringify "3"
           (add Sample.stringify Sample.tote
              (add Sample.stringify (Sample.tshirt (Some "L")) (empty None))))
  = items (add Sample.stringify (Sample.tshirt (Some "L")) (empty None)).
Proof.
  apply (cart_add_remove_round_trip Sample.stringify Sample.tote
           (add Sample.stringify (Sample.tshirt (Some "L")) (empty None))).
  intros x [<-|[]]. discriminate.
Defined.

Lemma cart_storage_follows_items_witness :
  CartView.persisted Sample.stringify
    (step Sample.stringify (empty None) (OAdd Sample.tote))
  /\ CartView.persisted Sample.stringify
       (step Sample.stringify
          (add Sample.stringify Sample.tote (empty None)) (OInc "9")).
Proof.
  split.
  - apply (proj1 (cart_storage_follows_items Sample.stringify (empty None)
                    (OAdd Sample.tote))).
    discriminate.
  - apply (proj2 (cart_storage_follows_items Sample.stringify
                    (add Sample.stringify Sample.tote (empty None))
                    (OInc "9"))).
    reflexivity.
Defined.

Lemma cart_count_zero_iff_empty_witness :
  items (run Sample.stringify (empty None)
           [OAdd Sample.tote; ODec "3"]) = [].
Proof.
  apply (proj1 (proj2 (cart_count_zero_iff_empty Sample.stringify
                         [OAdd Sample.tote; ODec "3"] None))).
  reflexivity.
Defined.

Lemma cart_save_load_round_trip_witness :
  load (fun _ => Some (encode [new_line Sample.tote])) Sample.page
    (storage (save Sample.stringify
                (add Sample.stringify Sample.tote (empty None))))
  = (encode [new_line Sample.tote], Normal).
Proof.
  apply (cart_save_load_round_trip
           (fun _ => Some (encode [new_line Sample.tote])) Sample.stringify
           Sample.page (add Sample.stringify Sample.tote (empty None))).
  - discriminate.
  - reflexivity.
Defined.

Lemma load_degrades_to_empty_witness :
  load Sample.parse Sample.page None = (VArr [], Normal)
  /\ load Sample.parse Sample.page (Some "{oops") = (VArr [], Normal).
Proof.
  split.
  - apply (proj1 (load_degrades_to_empty Sample.parse Sample.page None)).
    + left. reflexivity.
    + reflexivity.
  - apply (proj2 (load_degrades_to_empty Sample.parse Sample.page
                    (Some "{oops")) "{oops").
    + reflexivity.
    + discriminate.
    + reflexivity.
Defined.

Lemma load_throws_on_null_entry_witness :
  load (fun _ => Some (VArr [VNull])) Sample.page (Some "[null]")
  = (VArr [VNull], Throw TypeError).
Proof.
  apply (load_throws_on_null_entry (fun _ => Some (VArr [VNull]))
           Sample.page "[null]" [VNull]).
  - discriminate.
  - reflexivity.
  - left. reflexivity.
Defined.

Lemma updateUI_is_a_projection_witness :
  CartView.cartTotal
    (CartView.updateUI Sample.euros Sample.digits
       (add Sample.stringify Sample.tote (empty None))
       {| CartView.cartCount := Some "0"; CartView.cartItems := None;
          CartView.cartTotal := Some "old" |})
  = Some "old"
  /\ CartView.cartItems
       (CartView.updateUI Sample.euros Sample.digits (empty None)
          {| CartView.cartCount := Some "0";
             CartView.cartItems := Some (CartView.Children []);
             CartView.cartTotal := Some "old" |})
     = Some (CartView.Html
               ("<p class=" ++ CartView.dq ++ "muted" ++ CartView.dq
                ++ " style=" ++ CartView.dq ++ "padding:1rem;"
                ++ CartView.dq ++ ">Votre panier est vide.</p>")).
Proof.
  split.
  - apply (proj1 (proj2 (updateUI_is_a_projection Sample.euros Sample.digits
                           (add Sample.stringify Sample.tote (empty None))
                           {| CartView.cartCount := Some "0";
                              CartView.cartItems := None;
                              CartView.cartTotal := Some "old" |}))).
    reflexivity.
  - apply (proj2 (proj2 (updateUI_is_a_projection Sample.euros Sample.digits
                           (empty None)
                           {| CartView.cartCount := Some "0";
                              CartView.cartItems :=
                                Some (CartView.Children []);
                              CartView.cartTotal := Some "old" |}))).
    + discriminate.
    + reflexivity.
Defined.

End CartInstances.

Section SiteInstances.
Import Http.
Local Open Scope string_scope.
Local Open Scope Z_scope.

Lemma filter_click_marks_one_witness :
  length (Shop.filterButtons (Shop.click 2 Walk.shop_grid)) = 3%nat
  /\ map Shop.btn_primary (Shop.filterButtons (Shop.click 2 Walk.shop_grid))
     = [false; false; true].
Proof.
  split.
  - apply (proj1 (filter_click_marks_one 2 Walk.shop_grid
                    ltac:(simpl; lia))).
  - reflexivity.
Defined.

Lemma filter_click_shows_category_witness :
  map Shop.shown (Shop.products (Shop.click 1 Walk.shop_grid))
  = [Shop.Flex; Shop.Flex; Shop.Hidden]
  /\ Shop.click 1 (Shop.click 2 Walk.shop_grid)
     = Shop.click 1 Walk.shop_grid.
Proof.
  split; [reflexivity|].
  apply (proj2 (proj2 (filter_click_shows_category 1 Walk.shop_grid
                         {| Shop.data_filter := Some "merch";
                            Shop.btn_primary := false;
                            Shop.btn_ghost := true |} eq_refl))).
Defined.

Ltac distinct_fields := repeat constructor; simpl; intuition discriminate.

Lemma sqlite_register_validates_witness :
  Sqlite.events_register false [("event_id", "1"); ("name", "Ann")]
    Sqlite.fresh
  = (Send 400 "Tous les champs requis manquent.", Sqlite.fresh)
  /\ fst (Sqlite.events_register false
            [("event_id", "1"); ("name", "Ann"); ("email", "ann@pacs.org")]
            Sqlite.fresh)
     = Redirect "/?success=1".
Proof.
  split.
  - apply (proj1 (sqlite_register_validates false
                    [("event_id", "1"); ("name", "Ann")] Sqlite.fresh
                    ltac:(distinct_fields))).
    right. right. reflexivity.
  - refine (f_equal fst
              (proj1 (proj2 (sqlite_register_validates false
                               [("event_id", "1"); ("name", "Ann");
                                ("email", "ann@pacs.org")] Sqlite.fresh
                               ltac:(distinct_fields))
                        "1" "Ann" "ann@pacs.org"
                        eq_refl _ eq_refl _ eq_refl _)));
      discriminate.
Defined.

Lemma sqlite_contact_validates_witness :
  SqliteSite.contact_submit Walk.sqlite_host
    [("name", "Ann"); ("email", "ann@pacs.org")] SqliteSite.fresh
  = (Send 400 "Veuillez remplir les champs obligatoires.", SqliteSite.fresh)
  /\ fst (SqliteSite.contact_submit Walk.sqlite_host
            [("name", "Ann"); ("email", "ann@pacs.org");
             ("message", "Bonjour")] SqliteSite.fresh)
     = Redirect "/?contact=1".
Proof.
  split.
  - apply (proj1 (sqlite_contact_validates Walk.sqlite_host
                    [("name", "Ann"); ("email", "ann@pacs.org")]
                    SqliteSite.fresh ltac:(distinct_fields))).
    right. right. reflexivity.
  - apply (proj2 (sqlite_contact_validates Walk.sqlite_host
                    [("name", "Ann"); ("email", "ann@pacs.org");
                     ("message", "Bonjour")] SqliteSite.fresh
                    ltac:(distinct_fields))
             "Ann" "ann@pacs.org" "Bonjour");
      try reflexivity; discriminate.
Defined.

Lemma sqlite_admin_forms_validate_witness :
  SqliteSite.handle Walk.sqlite_host
    (Walk.sqlite_post "/admin/events/add" [("title", "Atelier")])
    (SqliteSite.fresh, Some Walk.sqlite_admin)
  = (Some (Send 400 "Champs obligatoires manquants."),
     (SqliteSite.fresh, Some Walk.sqlite_admin))
  /\ SqliteSite.handle Walk.sqlite_host
       (Walk.sqlite_post "/admin/volunteers/add" [("name", "Ann")])
       (SqliteSite.fresh, Some Walk.sqlite_admin)
     = (Some (Send 400 "Nom et poste obligatoires."),
        (SqliteSite.fresh, Some Walk.sqlite_admin)).
Proof.
  destruct (sqlite_admin_forms_validate Walk.sqlite_host
              [("title", "Atelier")] SqliteSite.fresh Walk.sqlite_admin
              ltac:(distinct_fields) eq_refl) as (He & _ & _).
  destruct (sqlite_admin_forms_validate Walk.sqlite_host
              [("name", "Ann")] SqliteSite.fresh Walk.sqlite_admin
              ltac:(distinct_fields) eq_refl) as (_ & Hv & _).
  split.
  - apply He. right. left. reflexivity.
  - apply Hv. right. reflexivity.
Defined.

Lemma sqlite_handle_only_adds_witness :
  fst (snd (SqliteSite.handle Walk.sqlite_host (Walk.sqlite_get "/")
              (Walk.sqlite_started "hash-of-admin" true, None)))
  = Walk.sqlite_started "hash-of-admin" true
  /\ fst (snd (SqliteSite.handle Walk.sqlite_host
                 (Walk.sqlite_post "/contact" [("name", "Ann")])
                 (Walk.sqlite_started "hash-of-admin" true, None)))
     = Walk.sqlite_started "hash-of-admin" true.
Proof.
  split.
  - apply (proj1 (proj2 (proj2 (sqlite_handle_only_adds Walk.sqlite_host
                                  (Walk.sqlite_get "/")
                                  (Walk.sqlite_started "hash-of-admin" true)
                                  None)))).
    reflexivity.
  - apply (proj1 (proj2 (proj2 (proj2 (proj2
             (sqlite_handle_only_adds Walk.sqlite_host
                (Walk.sqlite_post "/contact" [("name", "Ann")])
                (Walk.sqlite_started "hash-of-admin" true) None)))))
             (Send 400 "Veuillez remplir les champs obligatoires.")).
    + reflexivity.
    + simpl. lia.
Defined.

Lemma sqlite_handle_needs_admin_witness :
  SqliteSite.events
    (fst (snd (SqliteSite.handle Walk.sqlite_host
                 (Walk.sqlite_post "/admin/events/add"
                    [("title", "Atelier"); ("date", "2025-09-21");
                     ("start_time", "10:00"); ("location", "Salle 2")])
                 (SqliteSite.fresh, None))))
  = SqliteSite.events SqliteSite.fresh.
Proof.
  apply (proj1 (sqlite_handle_needs_admin Walk.sqlite_host
                  (Walk.sqlite_post "/admin/events/add"
                     [("title", "Atelier"); ("date", "2025-09-21");
                      ("start_time", "10:00"); ("location", "Salle 2")])
                  SqliteSite.fresh None (or_introl eq_refl))).
Defined.

Lemma sqlite_default_admin_can_log_in_witness :
  SqliteSite.handle Walk.sqlite_host
    (Walk.sqlite_post "/login" (Walk.credentials "admin" "admin"))
    (Walk.sqlite_started "hash-of-admin" true, None)
  = (Some (Redirect "/admin"),
     (Walk.sqlite_started "hash-of-admin" true, Some Walk.sqlite_admin)).
Proof.
  apply (proj1 (proj2 (sqlite_default_admin_can_log_in Walk.sqlite_host
                         "hash-of-admin" true eq_refl eq_refl))).
Defined.

Lemma sqlite_bootstrap_keeps_accounts_witness :
  Sqlite.users
    (fst (Sqlite.bootstrap
            {| Sqlite.hash := Some "other"; Sqlite.lookup_after_roles := true |}
            (Sqlite.insert_user "bob" "hash-of-bob" 2 Sqlite.fresh)))
  = Sqlite.users (Sqlite.insert_user "bob" "hash-of-bob" 2 Sqlite.fresh).
Proof.
  apply (proj1 (proj2 (proj2 (sqlite_bootstrap_keeps_accounts
                                {| Sqlite.hash := Some "other";
                                   Sqlite.lookup_after_roles := true |}
                                (Sqlite.insert_user "bob" "hash-of-bob" 2
                                   Sqlite.fresh))))).
  discriminate.
Defined.

Lemma shop_seed_is_idempotent_and_consistent_witness :
  exists c,
    In c (SqliteSite.rows
            (SqliteSite.categories
               (SqliteSite.seed_shop false SqliteSite.fresh)))
    /\ SqliteSite.cat_id c = 2.
Proof.
  destruct (proj1 (proj2 (proj2 (proj2
             (shop_seed_is_idempotent_and_consistent false))))
             {| SqliteSite.pr_id := 4;
                SqliteSite.pr_name := "Service d’assiettes vintage (x6)";
                SqliteSite.pr_description := "Porcelaine – État : Très bon";
                SqliteSite.pr_price := 28;
                SqliteSite.pr_image :=
                  "https://images.unsplash.com/photo-1523419409543-8c1b9b9aa4a0?q=80&w=1200&auto=format&fit=crop";
                SqliteSite.pr_category_id := 2 |})
    as (c & Hc & Hid).
  - right. right. right. left. reflexivity.
  - exists c. split; [exact Hc|exact Hid].
Defined.

Lemma pg_handle_never_answers_400_witness :
  status_of (Redirect "/") = 200 \/ status_of (Redirect "/") = 302
  \/ status_of (Redirect "/") = 500.
Proof.
  apply (pg_handle_never_answers_400 Walk.pg_host
           (Walk.pg_post "/contact" [])
           (Walk.pg_started "hash-of-admin") {| Pg.userId := None |}
           (Redirect "/")).
  reflexivity.
Defined.

Lemma pg_handle_writes_witness :
  fst (snd (PgSite.handle Walk.pg_host (Walk.pg_get "/")
              (Walk.pg_started "hash-of-admin", {| Pg.userId := None |})))
  = Walk.pg_started "hash-of-admin"
  /\ PgSite.events
       (fst (snd (PgSite.handle Walk.pg_host
                    (Walk.pg_post "/admin/add-event" [("title", "Atelier")])
                    (Walk.pg_started "hash-of-admin",
                     {| Pg.userId := None |}))))
     = PgSite.events (Walk.pg_started "hash-of-admin").
Proof.
  split.
  - apply (proj1 (pg_handle_writes Walk.pg_host (Walk.pg_get "/")
                    (Walk.pg_started "hash-of-admin")
                    {| Pg.userId := None |})).
    reflexivity.
  - apply (proj1 (proj2 (proj2 (proj2 (proj2
             (pg_handle_writes Walk.pg_host
                (Walk.pg_post "/admin/add-event" [("title", "Atelier")])
                (Walk.pg_started "hash-of-admin")
                {| Pg.userId := None |})))) eq_refl)).
Defined.

Lemma pg_ensureAdmin_keeps_accounts_witness :
  Pg.users (Pg.rows (fst (Pg.ensureAdmin (Pg.no_rejection "other")
                            Sample.pg_two_users)))
  = Pg.users (Pg.rows Sample.pg_two_users).
Proof.
  apply (proj1 (proj2 (proj2 (proj2
           (pg_ensureAdmin_keeps_accounts (Pg.no_rejection "other")
              Sample.pg_two_users))))).
  eexists. split; [left; reflexivity|reflexivity].
Defined.

Lemma pg_default_admin_can_log_in_witness :
  PgSite.handle Walk.pg_host
    (Walk.pg_post "/login" (Walk.credentials "admin" "admin"))
    (Walk.pg_started "hash-of-admin", {| Pg.userId := None |})
  = (Some (Redirect "/admin"),
     (Walk.pg_started "hash-of-admin", {| Pg.userId := Some 1 |})).
Proof.
  apply (proj1 (proj2 (pg_default_admin_can_log_in Walk.pg_host
                         "hash-of-admin" eq_refl eq_refl))).
Defined.

End SiteInstances.
